(** * toupcam: the ToupCam camera binding of [camera.py]

    A shallow embedding of the two session classes of [camera.py]
    ([ToupCamCameraRaw] and [ToupCamCamera]) together with the parts of
    numpy, Pillow and ctypes that their methods call.

    - A numpy array is a shape, an item size and a flat little-endian byte
      buffer in C order; [view], [reshape] and slicing are the
      reinterpretations numpy performs on it.
    - A Pillow image is a mode, a (width, height) size and one plane per band.
      [camera.py] reaches Pillow as [PIL.Image] after a bare [import PIL];
      the submodule is taken to be loaded.
    - The vendor library [lib] and the helper [success] are imported from the
      module [core], which is not part of [camera.py]: they are taken as a
      record of parameters.  Every call into [lib] is appended to a log, so
      that "no device call happened" is a statement about that log.
    - Methods run in a state-and-exception monad over the instance attributes
      and the outside world (device log, files written). *)

From Stdlib Require Import ZArith String List Bool Arith Lia.
Import ListNotations.

Open Scope string_scope.
Open Scope nat_scope.

(** ** Python exceptions and results *)

Inductive exn : Type :=
| ValueError (msg : string)
| AttributeError (msg : string)
| IndexError (msg : string).

Definition result (A : Type) : Type := (exn + A)%type.

Definition is_error {A : Type} (r : result A) : bool :=
  match r with inl _ => true | inr _ => false end.

(** ** Bytes and machine integers *)

(** Byte [i] (least significant first) of the integer [x]. *)
Definition byte_of (x : Z) (i : nat) : Z :=
  Z.land (Z.shiftr x (8 * Z.of_nat i)) 255.

(** The [k] bytes of one array element, in memory order (little endian). *)
Definition to_bytes (k : nat) (x : Z) : list Z :=
  map (byte_of x) (seq 0 k).

(** [ctypes.c_int(v)]: no overflow checking, the value wraps to 32 bits,
    two's complement. *)
Definition c_int (v : Z) : Z :=
  (v + 2 ^ 31) mod 2 ^ 32 - 2 ^ 31.

(** [ctypes.c_ulong(v)] on an LP64 platform. *)
Definition c_ulong (v : Z) : Z :=
  v mod 2 ^ 64.

(** ** Lists cut in fixed-size pieces *)

(** The first [n] pieces of [d] consecutive entries of [l]. *)
Fixpoint chunks {A : Type} (n d : nat) (l : list A) : list (list A) :=
  match n with
  | O => []
  | S n' => firstn d l :: chunks n' d (skipn d l)
  end.

(** ** numpy *)

Module np.

Record ndarray : Type := mk_ndarray {
  shape : list nat;      (* .shape *)
  itemsize : nat;        (* .dtype.itemsize, in bytes *)
  buffer : list Z        (* the memory, one entry per byte, C order *)
}.

Definition uint8 : nat := 1.
Definition uint32 : nat := 4.

Definition prod (s : list nat) : nat := fold_right Nat.mul 1 s.

(** [.size]: the number of elements. *)
Definition size (a : ndarray) : nat := prod (shape a).

(** [np.zeros(shape, dtype=...)]; a negative dimension is refused. *)
Definition zeros (shp : list Z) (dtype : nat) : result ndarray :=
  if existsb (fun d => d <? 0)%Z shp
  then inl (ValueError "negative dimensions are not allowed")
  else
    let s := map Z.to_nat shp in
    inr (mk_ndarray s dtype (repeat 0%Z (prod s * dtype))).

(** An array holding the given elements, each stored on [dtype] bytes. *)
Definition array (shp : list nat) (dtype : nat) (elems : list Z) : ndarray :=
  mk_ndarray shp dtype (concat (map (to_bytes dtype) elems)).

(** [a.view(np.uint8)]: the same memory read as bytes; the last axis grows
    by the item size.  A 0-d array cannot change its item size. *)
Definition view_uint8 (a : ndarray) : result ndarray :=
  match rev (shape a) with
  | [] =>
      if itemsize a =? 1
      then inr (mk_ndarray [] 1 (buffer a))
      else inl (ValueError
        "Changing the dtype of a 0d array is only supported if the itemsize is unchanged")
  | last :: front =>
      inr (mk_ndarray (rev front ++ [last * itemsize a]) 1 (buffer a))
  end.

(** [a.reshape(known + (-1,))]: the last dimension is inferred.  numpy
    refuses when the known dimensions multiply to zero or do not divide the
    size of the array. *)
Definition reshape_infer (known : list nat) (a : ndarray) : result ndarray :=
  let s_known := prod known in
  if (s_known =? 0) || negb (size a mod s_known =? 0)
  then inl (ValueError "cannot reshape array into shape")
  else inr (mk_ndarray (known ++ [size a / s_known]) (itemsize a) (buffer a)).

(** [a[..., :stop]]: the first [stop] entries along the last axis (fewer
    when the axis is shorter).  The result is given by its contents in C
    order, which is what [tobytes] and the buffer interface hand out. *)
Definition slice_last (stop : nat) (a : ndarray) : result ndarray :=
  match rev (shape a) with
  | [] => inl (IndexError "too many indices for array")
  | last :: front =>
      let row := last * itemsize a in
      let keep := Nat.min stop last * itemsize a in
      inr (mk_ndarray (rev front ++ [Nat.min stop last]) (itemsize a)
             (concat (map (firstn keep)
                        (chunks (prod (rev front)) row (buffer a)))))
  end.

Definition tobytes (a : ndarray) : list Z := buffer a.

End np.

(** ** Pillow's [PIL.Image] *)

Module Image.

Record t : Type := mk_image {
  mode : string;
  size : nat * nat;          (* (width, height) *)
  bands : list (list Z)      (* one plane per band, row-major *)
}.

Definition getmodebands (m : string) : option nat :=
  if String.eqb m "L" then Some 1
  else if String.eqb m "RGB" then Some 3
  else None.

(** [Image.frombytes(mode, size, data, "raw", mode, 0, 1)]: the raw decoder
    reads [height] rows of [width] pixels; it reports "not enough image
    data" when the data ends before the last row, and ignores a surplus. *)
Definition frombytes (m : string) (sz : nat * nat) (data : list Z) : result t :=
  match getmodebands m with
  | None => inl (ValueError "unrecognized image mode")
  | Some nb =>
      let '(w, h) := sz in
      if (w =? 0) || (h =? 0)
      then inr (mk_image m sz (repeat [] nb))
      else if length data <? nb * w * h
      then inl (ValueError "not enough image data")
      else
        let px := chunks (w * h) nb data in
        inr (mk_image m sz
               (map (fun j => map (fun p => nth j p 0%Z) px) (seq 0 nb)))
  end.

(** [Image.fromarray(obj, mode)] with an explicit mode: only the number of
    dimensions is checked against the mode; the size is (shape[1],
    shape[0]), or (1, shape[0]) for a 1-d array, and the pixels are decoded from the array's bytes. *)
Definition fromarray (obj : np.ndarray) (m : string) : result t :=
  let ndim := length (np.shape obj) in
  let ndmax := if String.eqb m "L" then 2 else if String.eqb m "RGB" then 3 else 4 in
  if ndmax <? ndim
  then inl (ValueError "Too many dimensions")
  else
    match np.shape obj with
    | [] => inl (IndexError "tuple index out of range")
    | [n] => frombytes m (1, n) (np.tobytes obj)
    | rows :: cols :: _ => frombytes m (cols, rows) (np.tobytes obj)
    end.

(** [im.split()]: one single-band image per band. *)
Definition split (im : t) : list t :=
  map (fun b => mk_image "L" (size im) [b]) (bands im).

Definition same_size (a b : nat * nat) : bool :=
  (fst a =? fst b) && (snd a =? snd b).

Definition plane (im : t) : list Z := hd [] (bands im).

(** [Image.merge(mode, bands)]: the number of bands must fit the mode and
    every band must be a single-band image of the size of the first. *)
Definition merge (m : string) (bs : list t) : result t :=
  match getmodebands m with
  | None => inl (ValueError "wrong number of bands")
  | Some nb =>
      if negb (nb =? length bs)
      then inl (ValueError "wrong number of bands")
      else
        match bs with
        | [] => inl (ValueError "wrong number of bands")
        | b0 :: rest =>
            if negb (forallb (fun b => String.eqb (mode b) "L") bs)
            then inl (ValueError "mode mismatch")
            else if negb (forallb (fun b => same_size (size b) (size b0)) rest)
            then inl (ValueError "size mismatch")
            else inr (mk_image m (size b0) (map plane bs))
        end
  end.

(** [im.getpixel((x, y))] for a position inside the image. *)
Definition getpixel (im : t) (x y : nat) : list Z :=
  map (fun b => nth (y * fst (size im) + x) b 0%Z) (bands im).

End Image.

(** [im.save(path)]: a missing path has no extension to pick a format from;
    otherwise the image is handed to the codec and lands in the file. *)
Definition save_target (path : option string) : result string :=
  match path with
  | None => inl (ValueError "unknown file extension")
  | Some p => inr p
  end.

(** ** The vendor library and the outside world *)

(** The Python closures handed to the library as C callbacks. *)
Inductive callback : Type :=
| get_frame (bits : Z).        (* [get_frame] of [ToupCamCamera.cam_open]; it
                                  captures [bits = ctypes.c_int(self.bits)] *)

(** Arguments of a foreign call. *)
Inductive c_arg : Type :=
| c_ptr (h : Z)                (* the device handle; 0 is the null pointer *)
| c_val (v : Z)                (* a ctypes integer passed by value *)
| byref                        (* the address of a fresh ctypes cell *)
| c_fn (f : callback)
| py_None.

Record lib_call : Type := mk_call { fn : string; args : list c_arg }.

(** What a foreign call answers: its return value and the values it stored
    through the [byref] arguments, in order.  A cell the library did not write
    keeps the 0 it was created with. *)
Record reply : Type := mk_reply { ret_val : Z; outs : list Z }.

Definition cell (r : reply) (i : nat) : Z := nth i (outs r) 0%Z.

(** The names imported from [core]: the loaded library [lib], whose answer to
    a call may depend on the calls made before, and the status test
    [success]. *)
Record Core : Type := mk_core {
  lib : list lib_call -> lib_call -> reply;
  success : Z -> bool
}.

Record world : Type := mk_world {
  calls : list lib_call;               (* every call into [lib], oldest first *)
  disk : list (string * Image.t)       (* every image saved, oldest first *)
}.

(** ** Methods as state-and-exception computations *)

Section Monad.

Context {S : Type}.

(** A method runs on the instance attributes [S] and the world; it returns
    a value or raises, and leaves both behind. *)
Definition M (A : Type) : Type := S -> world -> result A * S * world.

Definition ret {A : Type} (a : A) : M A := fun s w => (inr a, s, w).

Definition raise {A : Type} (e : exn) : M A := fun s w => (inl e, s, w).

Definition bind {A B : Type} (m : M A) (k : A -> M B) : M B :=
  fun s w =>
    match m s w with
    | (inl e, s', w') => (inl e, s', w')
    | (inr a, s', w') => k a s' w'
    end.

Definition lift {A : Type} (r : result A) : M A := fun s w => (r, s, w).

Definition get_self : M S := fun s w => (inr s, s, w).

Definition modify (f : S -> S) : M unit := fun s w => (inr tt, f s, w).

(** A call into the library: logged, answered by [lib]. *)
Definition call_lib (core : Core) (f : string) (a : list c_arg) : M reply :=
  fun s w =>
    let c := mk_call f a in
    (inr (lib core (calls w) c), s, mk_world (calls w ++ [c]) (disk w)).

(** [image.save(path)]. *)
Definition save (im : Image.t) (path : option string) : M unit :=
  fun s w =>
    match save_target path with
    | inl e => (inl e, s, w)
    | inr p => (inr tt, s, mk_world (calls w) (disk w ++ [(p, im)]))
    end.

End Monad.

Arguments M : clear implicits.

Notation "x <- m ;; k" := (bind m (fun x => k))
  (at level 61, m at next level, right associativity).
Notation "m ;;; k" := (bind m (fun _ => k))
  (at level 61, right associativity).

(** Lines 58-62 and 191-195 of [camera.py], the common body of both
    [get_pil_image] methods once [data] is known:
    [raw = data.view(np.uint8).reshape(data.shape + (-1,))],
    [bgr = raw[..., :3]], [image = PIL.Image.fromarray(bgr, 'RGB')],
    [b, g, r = image.split()], [PIL.Image.merge('RGB', (r, g, b))]. *)
Definition pil_image_of {S : Type} (data : np.ndarray) : M S Image.t :=
  viewed <- lift (np.view_uint8 data) ;;
  raw <- lift (np.reshape_infer (np.shape data) viewed) ;;
  bgr <- lift (np.slice_last 3 raw) ;;
  image <- lift (Image.fromarray bgr "RGB") ;;
  match Image.split image with
  | [b; g; r] => lift (Image.merge "RGB" [r; g; b])
  | _ => raise (ValueError "wrong number of values to unpack")
  end.

(** ** class ToupCamCameraRaw *)

Module ToupCamCameraRaw.

Record self_t : Type := mk_self {
  resolution : Z;
  cam : Z;
  bits : Z;
  _frame_fn : option callback;
  _save_path : option string
}.

Section Methods.

Variable core : Core.

(** [get_camera(cls, cid=None)]: [lib.Toupcam_Open(cid)]. *)
Definition get_camera {S : Type} : M S Z :=
  r <- call_lib core "Toupcam_Open" [py_None] ;;
  ret (ret_val r).

(** [__init__(self, resolution=2, bits=32)]. *)
Definition __init__ (resolution bits : Z) : M unit self_t :=
  if negb (existsb (Z.eqb bits) [32%Z])
  then raise (ValueError "Bits needs to by 8 or 32")
  else
    cam <- get_camera ;;
    ret (mk_self resolution cam bits None (Some "temp.png")).

Definition get_pil_image (data : np.ndarray) : M self_t Image.t :=
  pil_image_of data.

Definition _do_save (imagedata : np.ndarray) : M self_t unit :=
  self <- get_self ;;
  image_PIL <- get_pil_image imagedata ;;
  save image_PIL (_save_path self).

Definition cam_close : M self_t unit :=
  self <- get_self ;;
  if negb (cam self =? 0)%Z
  then call_lib core "Toupcam_Close" [c_ptr (cam self)] ;;; ret tt
  else ret tt.

Definition snap : M self_t unit :=
  self <- get_self ;;
  call_lib core "Toupcam_Snap" [c_ptr (cam self); c_val 0] ;;; ret tt.

Definition set_esize (nres : Z) : M self_t unit :=
  self <- get_self ;;
  call_lib core "Toupcam_put_eSize" [c_ptr (cam self); c_val (c_ulong nres)] ;;;
  ret tt.

Definition get_size : M self_t (option (Z * Z)) :=
  self <- get_self ;;
  r <- call_lib core "Toupcam_get_Size" [c_ptr (cam self); byref; byref] ;;
  if success core (ret_val r)
  then ret (Some (cell r 0, cell r 1))
  else ret None.

End Methods.

End ToupCamCameraRaw.

(** ** class ToupCamCamera *)

Module ToupCamCamera.

Record self_t : Type := mk_self {
  resolution : Z;
  cam : Z;
  bits : Z;
  _data : option np.ndarray;
  _frame_fn : option callback;
  _temptint_cb : option callback;
  _save_path : option string
}.

Definition set_data (d : np.ndarray) (s : self_t) : self_t :=
  mk_self (resolution s) (cam s) (bits s) (Some d) (_frame_fn s)
          (_temptint_cb s) (_save_path s).

Definition set_frame_fn (f : callback) (s : self_t) : self_t :=
  mk_self (resolution s) (cam s) (bits s) (_data s) (Some f)
          (_temptint_cb s) (_save_path s).

Section Methods.

Variable core : Core.

Definition get_camera {S : Type} : M S Z :=
  r <- call_lib core "Toupcam_Open" [py_None] ;;
  ret (ret_val r).

(** [__init__(self, resolution=2, bits=32)]; the class attributes
    [_data], [_frame_fn], [_temptint_cb] and [_save_path] are [None]. *)
Definition __init__ (resolution bits : Z) : M unit self_t :=
  if negb (existsb (Z.eqb bits) [32%Z])
  then raise (ValueError "Bits needs to by 8 or 32")
  else
    cam <- get_camera ;;
    ret (mk_self resolution cam bits None None None None).

(** [get_pil_image(self, data=None)]. *)
Definition get_pil_image (data : option np.ndarray) : M self_t Image.t :=
  self <- get_self ;;
  match (match data with None => _data self | Some d => Some d end) with
  | None => raise (AttributeError "'NoneType' object has no attribute 'view'")
  | Some data => pil_image_of data
  end.

Definition get_image_data : M self_t (option np.ndarray) :=
  self <- get_self ;;
  ret (_data self).

Definition save_tiff (p : string) : M self_t unit :=
  im <- get_pil_image None ;;
  save im (Some p).

Definition _do_save (im : np.ndarray) : M self_t unit :=
  image <- get_pil_image (Some im) ;;
  self <- get_self ;;
  save image (_save_path self).

Definition cam_close : M self_t unit :=
  self <- get_self ;;
  if negb (cam self =? 0)%Z
  then call_lib core "Toupcam_Close" [c_ptr (cam self)] ;;; ret tt
  else ret tt.

Definition set_esize (nres : Z) : M self_t unit :=
  self <- get_self ;;
  call_lib core "Toupcam_put_eSize" [c_ptr (cam self); c_val (c_ulong nres)] ;;;
  ret tt.

Definition get_size : M self_t (option (Z * Z)) :=
  self <- get_self ;;
  r <- call_lib core "Toupcam_get_Size" [c_ptr (cam self); byref; byref] ;;
  if success core (ret_val r)
  then ret (Some (cell r 0, cell r 1))
  else ret None.

(** [get_esize] returns the [c_long] cell itself, given here by its value. *)
Definition get_esize : M self_t (option Z) :=
  self <- get_self ;;
  r <- call_lib core "Toupcam_get_eSize" [c_ptr (cam self); byref] ;;
  if success core (ret_val r)
  then ret (Some (cell r 0))
  else ret None.

(** The element type [cam_open] picks for the frame buffer. *)
Definition frame_dtype (self : self_t) : nat :=
  if (bits self =? 8)%Z then np.uint8 else np.uint32.

Definition cam_open : M self_t (option bool) :=
  self <- get_self ;;
  set_esize (resolution self) ;;;
  args <- get_size ;;
  match args with
  | None => ret None
  | Some (w, h) =>
      self <- get_self ;;
      data <- lift (np.zeros [h; w] (frame_dtype self)) ;;
      modify (set_data data) ;;;
      self <- get_self ;;
      let bits := c_int (bits self) in
      modify (set_frame_fn (get_frame bits)) ;;;
      self <- get_self ;;
      r <- call_lib core "Toupcam_StartPullModeWithCallback"
             [c_ptr (cam self);
              match _frame_fn self with Some f => c_fn f | None => py_None end] ;;
      ret (Some (success core (ret_val r)))
  end.

(** [_lib_func(self, func, *args)]: the status of the call, and with it
    the reply, in which the cells passed by reference are read
    afterwards. *)
Definition _lib_func (func : string) (a : list c_arg) : M self_t (bool * reply) :=
  self <- get_self ;;
  r <- call_lib core ("Toupcam_" ++ func) (c_ptr (cam self) :: a) ;;
  ret (success core (ret_val r), r).

Definition _lib_get_func (func : string) : M self_t (option Z) :=
  ok <- _lib_func ("get_" ++ func) [byref] ;;
  if fst ok then ret (Some (cell (snd ok) 0)) else ret None.

Definition set_gamma (v : Z) : M self_t unit :=
  _lib_func "put_Gamma" [c_val (c_int v)] ;;; ret tt.
Definition set_contrast (v : Z) : M self_t unit :=
  _lib_func "put_Contrast" [c_val (c_int v)] ;;; ret tt.
Definition set_brightness (v : Z) : M self_t unit :=
  _lib_func "put_Brightness" [c_val (c_int v)] ;;; ret tt.
Definition set_saturation (v : Z) : M self_t unit :=
  _lib_func "put_Saturation" [c_val (c_int v)] ;;; ret tt.
Definition set_hue (v : Z) : M self_t unit :=
  _lib_func "put_Hue" [c_val (c_int v)] ;;; ret tt.
Definition set_exposure_time (v : Z) : M self_t unit :=
  _lib_func "put_ExpoTime" [c_val (c_ulong v)] ;;; ret tt.

Definition get_gamma : M self_t (option Z) := _lib_get_func "Gamma".
Definition get_contrast : M self_t (option Z) := _lib_get_func "Contrast".
Definition get_brightness : M self_t (option Z) := _lib_get_func "Brightness".
Definition get_saturation : M self_t (option Z) := _lib_get_func "Saturation".
Definition get_hue : M self_t (option Z) := _lib_get_func "Hue".
Definition get_exposure_time : M self_t (option Z) := _lib_get_func "ExpoTime".

Definition get_temperature_tint : M self_t (option (Z * Z)) :=
  ok <- _lib_func "get_TempTint" [byref; byref] ;;
  if fst ok then ret (Some (cell (snd ok) 0, cell (snd ok) 1)) else ret None.

(** The cell is a [c_bool]; its value is read as 0 or 1. *)
Definition get_auto_exposure : M self_t (option Z) :=
  self <- get_self ;;
  r <- call_lib core "Toupcam_get_AutoExpoEnable" [c_ptr (cam self); byref] ;;
  if success core (ret_val r)
  then ret (Some (cell r 0))
  else ret None.

(** [save_jpeg(self, p, quality=100)]: the current frame goes to the JPEG
    codec, which takes the quality. *)
Definition save_jpeg (p : string) (quality : Z) : M self_t unit :=
  im <- get_pil_image None ;;
  save im (Some p).

(** [set_temperature_tint(self, temp, tint)]: plain Python integers handed
    to a foreign function travel as C [int]. *)
Definition set_temperature_tint (temp tint : Z) : M self_t unit :=
  self <- get_self ;;
  call_lib core "Toupcam_put_TempTint"
    [c_ptr (cam self); c_val (c_int temp); c_val (c_int tint)] ;;;
  ret tt.

Definition set_auto_exposure (expo_enabled : Z) : M self_t unit :=
  self <- get_self ;;
  call_lib core "Toupcam_put_AutoExpoEnable"
    [c_ptr (cam self); c_val (c_int expo_enabled)] ;;;
  ret tt.

End Methods.

End ToupCamCamera.

(** ** Valid pixel buffers *)

(** A [height] x [width] array of [k]-byte elements: what [np.zeros((h, w),
    dtype)] allocates and the library fills. *)
Definition PixelBuffer (h w k : nat) (a : np.ndarray) : Prop :=
  np.shape a = [h; w] /\ np.itemsize a = k /\
  length (np.buffer a) = h * w * k.

(** Byte [j] of the element in row [y], column [x] of a buffer [width] wide
    with [k]-byte elements. *)
Definition elem_byte (a : np.ndarray) (w k : nat) (y x j : nat) : Z :=
  nth ((y * w + x) * k + j) (np.buffer a) 0%Z.

(** The spec's synthetic buffer: 2 x 2 elements of 32 bits whose bytes are
    B = 10, G = 20, R = 30 and padding 255. *)
Definition bgr_pixel : Z := 10 + 20 * 2 ^ 8 + 30 * 2 ^ 16 + 255 * 2 ^ 24.

Definition sample_buffer : np.ndarray :=
  np.array [2; 2] np.uint32 [bgr_pixel; bgr_pixel; bgr_pixel; bgr_pixel].

(** A library that opens a device (handle 1) and then fails every call with
    status -1; the status test is the usual "not negative". *)
Definition demo_core : Core :=
  mk_core (fun _ c => if String.eqb (fn c) "Toupcam_Open"
                      then mk_reply 1 []
                      else mk_reply (-1) [])
          (fun r => (0 <=? r)%Z).

(** A library whose device answers: the size query stores 640 and 480 and
    every call reports status 0. *)
Definition live_core : Core :=
  mk_core (fun _ c => if String.eqb (fn c) "Toupcam_Open"
                      then mk_reply 1 []
                      else if String.eqb (fn c) "Toupcam_get_Size"
                      then mk_reply 0 [640; 480]%Z
                      else mk_reply 0 [7]%Z)
          (fun r => (0 <=? r)%Z).

Definition world0 : world := mk_world [] [].

Definition demo_self : ToupCamCamera.self_t :=
  ToupCamCamera.mk_self 2 1 32 None None None None.

(** A session whose frame buffer is the sample buffer. *)
Definition holding_self : ToupCamCamera.self_t :=
  ToupCamCamera.mk_self 2 1 32 (Some sample_buffer) None None None.

Definition demo_raw_self : ToupCamCameraRaw.self_t :=
  ToupCamCameraRaw.mk_self 2 1 32 None (Some "temp.png").

(** ** Vocabulary of the statements *)

(** The library calls the methods make. *)
Definition open_call : lib_call := mk_call "Toupcam_Open" [py_None].

Definition close_call (h : Z) : lib_call := mk_call "Toupcam_Close" [c_ptr h].

Definition put_eSize_call (s : ToupCamCamera.self_t) : lib_call :=
  mk_call "Toupcam_put_eSize"
    [c_ptr (ToupCamCamera.cam s); c_val (c_ulong (ToupCamCamera.resolution s))].

Definition get_Size_call (s : ToupCamCamera.self_t) : lib_call :=
  mk_call "Toupcam_get_Size" [c_ptr (ToupCamCamera.cam s); byref; byref].

Definition start_call (s : ToupCamCamera.self_t) : lib_call :=
  mk_call "Toupcam_StartPullModeWithCallback"
    [c_ptr (ToupCamCamera.cam s);
     c_fn (get_frame (c_int (ToupCamCamera.bits s)))].

Definition getter_call (s : ToupCamCamera.self_t) (func : string) : lib_call :=
  mk_call ("Toupcam_" ++ "get_" ++ func) [c_ptr (ToupCamCamera.cam s); byref].

(** What a scalar getter hands back for the reply [r] of its library call. *)
Definition read_back (core : Core) (r : reply) : option Z :=
  if success core (ret_val r) then Some (cell r 0) else None.

(** The bytes kept by [raw[..., :3]] of an [h] x [w] x [k] byte array. *)
Definition kept (h w k : nat) (buf : list Z) : list (list Z) :=
  map (firstn (Nat.min 3 k)) (chunks (h * w) k buf).

(** The image [get_pil_image] builds from three-byte pixels [px]. *)
Definition swapped (w h : nat) (px : list (list Z)) : Image.t :=
  Image.mk_image "RGB" (w, h)
    [map (fun p => nth 2 p 0%Z) px;
     map (fun p => nth 1 p 0%Z) px;
     map (fun p => nth 0 p 0%Z) px].

(** ** Sequences of method calls *)

(** One call of a method of [ToupCamCamera] by a client. *)
Inductive method : Type :=
| call_cam_open
| call_cam_close
| call_get_pil_image (data : option np.ndarray)
| call_get_image_data
| call_save_tiff (p : string)
| call_save_jpeg (p : string) (quality : Z)
| call_do_save (im : np.ndarray)
| call_set_esize (nres : Z)
| call_get_size
| call_get_esize
| call_set_gamma (v : Z)
| call_set_contrast (v : Z)
| call_set_brightness (v : Z)
| call_set_saturation (v : Z)
| call_set_hue (v : Z)
| call_set_exposure_time (v : Z)
| call_get_gamma
| call_get_contrast
| call_get_brightness
| call_get_saturation
| call_get_hue
| call_get_exposure_time
| call_set_temperature_tint (temp tint : Z)
| call_get_temperature_tint
| call_get_auto_exposure
| call_set_auto_exposure (expo_enabled : Z).

(** Forget the value a method returns. *)
Definition discard {S A : Type} (m : M S A) : M S unit := m ;;; ret tt.

Definition invoke (core : Core) (m : method) : M ToupCamCamera.self_t unit :=
  match m with
  | call_cam_open => discard (ToupCamCamera.cam_open core)
  | call_cam_close => ToupCamCamera.cam_close core
  | call_get_pil_image data => discard (ToupCamCamera.get_pil_image data)
  | call_get_image_data => discard ToupCamCamera.get_image_data
  | call_save_tiff p => ToupCamCamera.save_tiff p
  | call_save_jpeg p q => ToupCamCamera.save_jpeg p q
  | call_do_save im => ToupCamCamera._do_save im
  | call_set_esize n => ToupCamCamera.set_esize core n
  | call_get_size => discard (ToupCamCamera.get_size core)
  | call_get_esize => discard (ToupCamCamera.get_esize core)
  | call_set_gamma v => ToupCamCamera.set_gamma core v
  | call_set_contrast v => ToupCamCamera.set_contrast core v
  | call_set_brightness v => ToupCamCamera.set_brightness core v
  | call_set_saturation v => ToupCamCamera.set_saturation core v
  | call_set_hue v => ToupCamCamera.set_hue core v
  | call_set_exposure_time v => ToupCamCamera.set_exposure_time core v
  | call_get_gamma => discard (ToupCamCamera.get_gamma core)
  | call_get_contrast => discard (ToupCamCamera.get_contrast core)
  | call_get_brightness => discard (ToupCamCamera.get_brightness core)
  | call_get_saturation => discard (ToupCamCamera.get_saturation core)
  | call_get_hue => discard (ToupCamCamera.get_hue core)
  | call_get_exposure_time => discard (ToupCamCamera.get_exposure_time core)
  | call_set_temperature_tint t u => ToupCamCamera.set_temperature_tint core t u
  | call_get_temperature_tint => discard (ToupCamCamera.get_temperature_tint core)
  | call_get_auto_exposure => discard (ToupCamCamera.get_auto_exposure core)
  | call_set_auto_exposure e => ToupCamCamera.set_auto_exposure core e
  end.

(** The calls of a client one after the other; as in Python, the first
    exception ends the sequence. *)
Fixpoint script (core : Core) (ms : list method) : M ToupCamCamera.self_t unit :=
  match ms with
  | [] => ret tt
  | m :: rest => invoke core m ;;; script core rest
  end.



(** A library whose size query succeeds and stores the given width and
    height; every call reports status 0 and the device handle is 1. *)
Definition sized_core (w h : Z) : Core :=
  mk_core (fun _ c => if String.eqb (fn c) "Toupcam_Open"
                      then mk_reply 1 []
                      else if String.eqb (fn c) "Toupcam_get_Size"
                      then mk_reply 0 [w; h]
                      else mk_reply 0 [])
          (fun r => (0 <=? r)%Z).

(** A library that finds no device: [Toupcam_Open] answers the null
    pointer and every call fails. *)
Definition absent_core : Core :=
  mk_core (fun _ c => if String.eqb (fn c) "Toupcam_Open"
                      then mk_reply 0 []
                      else mk_reply (-1) [])
          (fun r => (0 <=? r)%Z).

(** The call a setter makes. *)
Definition setter_call (s : ToupCamCamera.self_t) (func : string) (v : Z) : lib_call :=
  mk_call ("Toupcam_" ++ func) [c_ptr (ToupCamCamera.cam s); c_val v].

(** The world after one more image was saved. *)
Definition saved (wd : world) (p : string) (im : Image.t) : world :=
  mk_world (calls wd) (disk wd ++ [(p, im)]).

(** The world after more library calls. *)
Definition called (wd : world) (cs : list lib_call) : world :=
  mk_world (calls wd ++ cs) (disk wd).



(** What a getter of two values hands back for the reply [r]. *)
Definition read_pair (core : Core) (r : reply) : option (Z * Z) :=
  if success core (ret_val r) then Some (cell r 0, cell r 1) else None.

(** * Properties *)

(** ** Lists cut in pieces *)

Section Chunks.

Context {A : Type}.

Lemma chunks_length (n d : nat) (l : list A) :
  length (chunks n d l) = n.
Proof.
  revert l; induction n as [|n IH]; intros l; simpl; [reflexivity|].
  now rewrite IH.
Qed.

Lemma nth_chunks (n d i : nat) (l : list A) :
  i < n -> nth i (chunks n d l) [] = firstn d (skipn (i * d) l).
Proof.
  revert i l; induction n as [|n IH]; intros i l Hi; [lia|].
  destruct i as [|i]; simpl; [reflexivity|].
  rewrite IH by lia.
  now rewrite skipn_skipn, Nat.add_comm.
Qed.

Lemma chunks_all_length (n d : nat) (l : list A) :
  length l = n * d -> Forall (fun c => length c = d) (chunks n d l).
Proof.
  revert l; induction n as [|n IH]; intros l Hl; simpl; constructor.
  - rewrite length_firstn. simpl in Hl. lia.
  - apply IH. rewrite length_skipn. simpl in Hl. lia.
Qed.

Lemma chunks_concat (d : nat) (L : list (list A)) :
  Forall (fun c => length c = d) L ->
  chunks (length L) d (concat L) = L.
Proof.
  induction 1 as [|c L Hc _ IH]; simpl; [reflexivity|].
  subst d.
  rewrite firstn_app, skipn_app, Nat.sub_diag, firstn_all, skipn_all.
  simpl. rewrite app_nil_r, IH. reflexivity.
Qed.

Lemma length_concat_const (d : nat) (L : list (list A)) :
  Forall (fun c => length c = d) L ->
  length (concat L) = length L * d.
Proof.
  induction 1 as [|c L Hc _ IH]; simpl; [reflexivity|].
  rewrite length_app, IH, Hc. reflexivity.
Qed.

Lemma Forall_firstn_length (m d : nat) (L : list (list A)) :
  m <= d ->
  Forall (fun c => length c = d) L ->
  Forall (fun c => length c = m) (map (firstn m) L).
Proof.
  intros Hm; induction 1 as [|c L Hc _ IH]; simpl; constructor; [|exact IH].
  rewrite length_firstn. lia.
Qed.

End Chunks.

Lemma nth_band (j i : nat) (px : list (list Z)) :
  nth i (map (fun p => nth j p 0%Z) px) 0%Z = nth j (nth i px []) 0%Z.
Proof.
  rewrite <- (map_nth (fun p => nth j p 0%Z) px [] i).
  destruct j; reflexivity.
Qed.

Lemma nth_map_firstn (m i : nat) (L : list (list Z)) :
  nth i (map (firstn m) L) [] = firstn m (nth i L []).
Proof.
  rewrite <- (map_nth (firstn m) L [] i).
  now rewrite firstn_nil.
Qed.

Lemma nth_concat_const (k i j : nat) (L : list (list Z)) :
  Forall (fun c => length c = k) L -> j < k ->
  nth (i * k + j) (concat L) 0%Z = nth j (nth i L []) 0%Z.
Proof.
  intros HL Hj. revert i.
  induction HL as [|c L Hc _ IH]; intros i.
  - simpl. destruct (i * k + j), i, j; reflexivity.
  - destruct i as [|i]; simpl.
    + rewrite app_nth1 by lia. reflexivity.
    + rewrite app_nth2 by lia.
      replace (k + i * k + j - length c) with (i * k + j) by lia.
      apply IH.
Qed.

(** The bytes of an array built from integer elements are the bytes of the
    elements, least significant first. *)
Lemma elem_byte_array (h w k y x j : nat) (elems : list Z) :
  y * w + x < length elems -> j < k ->
  elem_byte (np.array [h; w] k elems) w k y x j =
  byte_of (nth (y * w + x) elems 0%Z) j.
Proof.
  intros Hi Hj. unfold elem_byte, np.array. cbn [np.buffer].
  rewrite (nth_concat_const k) by
    (try exact Hj; apply Forall_map, Forall_forall; intros e _;
     unfold to_bytes; now rewrite length_map, length_seq).
  change (@nil Z) with (to_bytes 0 0%Z) at 1.
  rewrite (nth_indep _ (to_bytes 0 0%Z) (to_bytes k 0%Z))
    by now rewrite length_map.
  rewrite (map_nth (to_bytes k) elems 0%Z).
  unfold to_bytes.
  rewrite (nth_indep _ 0%Z (byte_of (nth (y * w + x) elems 0%Z) 0))
    by now rewrite length_map, length_seq.
  rewrite (map_nth (byte_of _) (seq 0 k) 0 j), seq_nth by exact Hj.
  reflexivity.
Qed.

(** ** The conversion, step by step *)

Lemma prod_2 (a b : nat) : np.prod [a; b] = a * b.
Proof. unfold np.prod; simpl; lia. Qed.

Lemma view_rows (h w k : nat) (buf : list Z) :
  np.view_uint8 (np.mk_ndarray [h; w] k buf) =
  inr (np.mk_ndarray [h; w * k] 1 buf).
Proof. reflexivity. Qed.

Lemma reshape_rows (h w k : nat) (buf : list Z) :
  0 < h -> 0 < w ->
  np.reshape_infer [h; w] (np.mk_ndarray [h; w * k] 1 buf) =
  inr (np.mk_ndarray [h; w; k] 1 buf).
Proof.
  intros Hh Hw. unfold np.reshape_infer, np.size.
  cbn [np.shape np.itemsize np.buffer]. rewrite !prod_2.
  replace (h * (w * k)) with (k * (h * w)) by lia.
  rewrite Nat.Div0.mod_mul, Nat.div_mul by lia.
  destruct (h * w) eqn:E; [lia|]. reflexivity.
Qed.

Lemma reshape_empty (h w : nat) (a : np.ndarray) :
  h = 0 \/ w = 0 ->
  np.reshape_infer [h; w] a = inl (ValueError "cannot reshape array into shape").
Proof.
  intros H. unfold np.reshape_infer. rewrite prod_2.
  replace (h * w) with 0 by lia. reflexivity.
Qed.

Lemma slice_rows (h w k : nat) (buf : list Z) :
  np.slice_last 3 (np.mk_ndarray [h; w; k] 1 buf) =
  inr (np.mk_ndarray [h; w; Nat.min 3 k] 1 (concat (kept h w k buf))).
Proof.
  unfold np.slice_last, kept. cbn [np.shape np.itemsize np.buffer rev app].
  rewrite prod_2, !Nat.mul_1_r. reflexivity.
Qed.

Lemma kept_length (h w k : nat) (buf : list Z) :
  length (kept h w k buf) = h * w.
Proof. unfold kept. now rewrite length_map, chunks_length. Qed.

Lemma kept_all_length (h w k : nat) (buf : list Z) :
  length buf = h * w * k ->
  Forall (fun c => length c = Nat.min 3 k) (kept h w k buf).
Proof.
  intros Hlen. unfold kept.
  apply Forall_firstn_length with (d := k); [lia|].
  now apply chunks_all_length.
Qed.

Lemma nth_kept (h w k i j : nat) (buf : list Z) :
  i < h * w -> j < Nat.min 3 k ->
  nth j (nth i (kept h w k buf) []) 0%Z = nth (i * k + j) buf 0%Z.
Proof.
  intros Hi Hj. unfold kept.
  rewrite nth_map_firstn, nth_chunks by exact Hi.
  rewrite !nth_firstn.
  replace (j <? Nat.min 3 k) with true by (symmetry; apply Nat.ltb_lt; lia).
  replace (j <? k) with true by (symmetry; apply Nat.ltb_lt; lia).
  now rewrite nth_skipn.
Qed.

Lemma pil_image_of_rows {S : Type} (h w k : nat) (buf : list Z) (s : S) (wd : world) :
  0 < h -> 0 < w -> length buf = h * w * k ->
  pil_image_of (np.mk_ndarray [h; w] k buf) s wd =
  if k <? 3
  then (inl (ValueError "not enough image data"), s, wd)
  else (inr (swapped w h (kept h w k buf)), s, wd).
Proof.
  intros Hh Hw Hlen.
  destruct (Nat.ltb_spec k 3) as [Hk|Hk];
  unfold pil_image_of, bind, lift;
  cbn [np.shape]; rewrite view_rows, reshape_rows, slice_rows by assumption;
  unfold Image.fromarray; cbn [np.shape np.tobytes np.buffer length];
  cbn [String.eqb Ascii.eqb Bool.eqb Nat.ltb Nat.leb];
  unfold Image.frombytes; cbn [Image.getmodebands String.eqb Ascii.eqb Bool.eqb];
  (replace ((w =? 0) || (h =? 0)) with false
    by (symmetry; apply orb_false_iff; split; apply Nat.eqb_neq; lia));
  (rewrite (length_concat_const (Nat.min 3 k)) by now apply kept_all_length);
  rewrite kept_length.
  - replace (h * w * Nat.min 3 k <? 3 * w * h) with true
      by (symmetry; apply Nat.ltb_lt; nia).
    reflexivity.
  - replace (h * w * Nat.min 3 k <? 3 * w * h) with false
      by (symmetry; apply Nat.ltb_ge; nia).
    replace (w * h) with (length (kept h w k buf))
      by (rewrite kept_length; lia).
    assert (Hall := kept_all_length h w k buf Hlen).
    replace (Nat.min 3 k) with 3 in Hall by lia.
    rewrite (chunks_concat 3) by exact Hall.
    unfold Image.split, Image.merge, Image.same_size, swapped.
    cbn [seq map Image.bands Image.size Image.mode Image.getmodebands
         String.eqb Ascii.eqb Bool.eqb length Nat.eqb negb forallb andb
         fst snd Image.plane hd].
    rewrite !Nat.eqb_refl. reflexivity.
Qed.

(** The conversion reads nothing but its argument and writes nothing: on any
    instance and in any world it gives the same result and leaves both as
    they were. *)
Lemma pil_image_of_pure {S T : Type} (a : np.ndarray)
      (s : S) (wd : world) (t : T) (wd' : world) :
  pil_image_of a s wd = (fst (fst (pil_image_of a t wd')), s, wd).
Proof.
  unfold pil_image_of, bind, lift, raise.
  destruct (np.view_uint8 a) as [e|v]; [reflexivity|].
  destruct (np.reshape_infer (np.shape a) v) as [e|raw]; [reflexivity|].
  destruct (np.slice_last 3 raw) as [e|bgr]; [reflexivity|].
  destruct (Image.fromarray bgr "RGB") as [e|image]; [reflexivity|].
  destruct (Image.split image) as [|b [|g [|r [|x rest]]]]; reflexivity.
Qed.

Lemma pil_image_of_empty {S : Type} (h w k : nat) (buf : list Z)
      (s : S) (wd : world) :
  h = 0 \/ w = 0 ->
  pil_image_of (np.mk_ndarray [h; w] k buf) s wd =
  (inl (ValueError "cannot reshape array into shape"), s, wd).
Proof.
  intros H. unfold pil_image_of, bind, lift.
  cbn [np.shape]. rewrite view_rows, reshape_empty by exact H. reflexivity.
Qed.

Lemma PixelBuffer_inv (h w k : nat) (a : np.ndarray) :
  PixelBuffer h w k a ->
  a = np.mk_ndarray [h; w] k (np.buffer a) /\
  length (np.buffer a) = h * w * k.
Proof.
  destruct a as [shp isz buf]. unfold PixelBuffer. simpl.
  intros (-> & -> & Hlen). split; [reflexivity | exact Hlen].
Qed.

Lemma getpixel_swapped (h w k x y : nat) (buf : list Z) :
  3 <= k -> y < h -> x < w ->
  Image.getpixel (swapped w h (kept h w k buf)) x y =
  [nth ((y * w + x) * k + 2) buf 0%Z;
   nth ((y * w + x) * k + 1) buf 0%Z;
   nth ((y * w + x) * k + 0) buf 0%Z].
Proof.
  intros Hk Hy Hx.
  assert (Hi : y * w + x < h * w) by nia.
  unfold Image.getpixel, swapped.
  cbn [Image.bands Image.size fst map].
  rewrite !nth_band, !nth_kept by (assumption || lia).
  reflexivity.
Qed.

(** ** The claims *)

(** C1.  On a [height] x [width] buffer with positive height and width whose
    elements are at least three bytes wide, [get_pil_image] (of either class)
    returns an RGB image of the same width and height; the pixel at column
    [x] of row [y] has for R, G and B the third, the second and the first
    byte of the source element at that position. *)
Theorem get_pil_image_true_rgb
    (h w k : nat) (a : np.ndarray)
    (s : ToupCamCamera.self_t) (sr : ToupCamCameraRaw.self_t) (wd : world) :
  PixelBuffer h w k a -> 3 <= k -> 0 < h -> 0 < w ->
  exists img : Image.t,
    ToupCamCamera.get_pil_image (Some a) s wd = (inr img, s, wd) /\
    ToupCamCameraRaw.get_pil_image a sr wd = (inr img, sr, wd) /\
    Image.mode img = "RGB" /\
    Image.size img = (w, h) /\
    forall y x : nat, y < h -> x < w ->
      Image.getpixel img x y =
      [elem_byte a w k y x 2; elem_byte a w k y x 1; elem_byte a w k y x 0].
Proof.
  intros Hbuf Hk Hh Hw.
  destruct (PixelBuffer_inv _ _ _ _ Hbuf) as [Ha Hlen].
  exists (swapped w h (kept h w k (np.buffer a))).
  assert (Hnot : (k <? 3) = false) by (apply Nat.ltb_ge; exact Hk).
  repeat split.
  - unfold ToupCamCamera.get_pil_image, bind, get_self.
    rewrite Ha at 1. rewrite pil_image_of_rows, Hnot by assumption. reflexivity.
  - unfold ToupCamCameraRaw.get_pil_image.
    rewrite Ha at 1. rewrite pil_image_of_rows, Hnot by assumption. reflexivity.
  - intros y x Hy Hx. unfold elem_byte.
    now apply getpixel_swapped.
Qed.

(** On the spec's 2 x 2 buffer of 32-bit elements with bytes (10, 20, 30,
    255), every pixel of the image reads R = 30, G = 20, B = 10. *)
Lemma get_pil_image_true_rgb_sample :
  exists img : Image.t,
    ToupCamCamera.get_pil_image (Some sample_buffer) demo_self world0 =
      (inr img, demo_self, world0) /\
    Image.size img = (2, 2) /\
    forall y x : nat, y < 2 -> x < 2 ->
      Image.getpixel img x y = [30; 20; 10]%Z.
Proof.
  destruct (get_pil_image_true_rgb 2 2 4 sample_buffer
              demo_self demo_raw_self world0)
    as (img & Hrun & _ & _ & Hsize & Hpx).
  - repeat split; reflexivity.
  - lia.
  - lia.
  - lia.
  - exists img. split; [exact Hrun|]. split; [exact Hsize|].
    intros y x Hy Hx. rewrite Hpx by assumption.
    destruct y as [|[|y]]; [| |lia];
      (destruct x as [|[|x]]; [| |lia]); reflexivity.
Defined.

(** C3.  On a buffer whose elements are fewer than three bytes wide,
    [get_pil_image] (of either class) raises and returns no image: Pillow's
    decoder finds too few bytes for an RGB image of that size, or, when the
    buffer has no pixel at all, numpy already refuses the reshape.  Both are
    Python's [ValueError], the exception the spec calls ShapeError. *)
Theorem get_pil_image_narrow_fails
    (h w k : nat) (a : np.ndarray)
    (s : ToupCamCamera.self_t) (sr : ToupCamCameraRaw.self_t) (wd : world) :
  PixelBuffer h w k a -> k < 3 ->
  let msg := if (h =? 0) || (w =? 0)
             then "cannot reshape array into shape"
             else "not enough image data" in
  ToupCamCamera.get_pil_image (Some a) s wd = (inl (ValueError msg), s, wd) /\
  ToupCamCameraRaw.get_pil_image a sr wd = (inl (ValueError msg), sr, wd).
Proof.
  intros Hbuf Hk msg.
  destruct (PixelBuffer_inv _ _ _ _ Hbuf) as [Ha Hlen].
  assert (Hlt : (k <? 3) = true) by (apply Nat.ltb_lt; exact Hk).
  unfold ToupCamCamera.get_pil_image, ToupCamCameraRaw.get_pil_image,
    bind, get_self.
  rewrite Ha. subst msg.
  destruct (Nat.eqb_spec h 0) as [Hh|Hh]; [|destruct (Nat.eqb_spec w 0) as [Hw|Hw]];
    cbn [orb].
  - rewrite !pil_image_of_empty by (left; exact Hh). split; reflexivity.
  - rewrite !pil_image_of_empty by (right; exact Hw). split; reflexivity.
  - rewrite !pil_image_of_rows, Hlt by (assumption || lia). split; reflexivity.
Qed.

Lemma get_pil_image_narrow_fails_witness :
  ToupCamCamera.get_pil_image
    (Some (np.array [2; 2] np.uint8 [1; 2; 3; 4]%Z)) demo_self world0 =
  (inl (ValueError "not enough image data"), demo_self, world0).
Proof.
  refine (proj1 (get_pil_image_narrow_fails 2 2 1
                   (np.array [2; 2] np.uint8 [1; 2; 3; 4]%Z)
                   demo_self demo_raw_self world0 _ _)).
  - repeat split; reflexivity.
  - lia.
Defined.

(** C4.  On a buffer of height 0 or width 0, [get_pil_image] (of either
    class) raises and returns no image: numpy cannot infer the byte axis of
    an array without elements.  The exception is Python's [ValueError], which
    the spec calls EmptyBufferError here. *)
Theorem get_pil_image_empty_fails
    (h w k : nat) (a : np.ndarray)
    (s : ToupCamCamera.self_t) (sr : ToupCamCameraRaw.self_t) (wd : world) :
  PixelBuffer h w k a -> h = 0 \/ w = 0 ->
  ToupCamCamera.get_pil_image (Some a) s wd =
    (inl (ValueError "cannot reshape array into shape"), s, wd) /\
  ToupCamCameraRaw.get_pil_image a sr wd =
    (inl (ValueError "cannot reshape array into shape"), sr, wd).
Proof.
  intros Hbuf Hz.
  destruct (PixelBuffer_inv _ _ _ _ Hbuf) as [Ha _].
  unfold ToupCamCamera.get_pil_image, ToupCamCameraRaw.get_pil_image,
    bind, get_self.
  rewrite Ha, !pil_image_of_empty by exact Hz. split; reflexivity.
Qed.

Lemma get_pil_image_empty_fails_witness :
  ToupCamCamera.get_pil_image
    (Some (np.array [0; 5] np.uint32 [])) demo_self world0 =
  (inl (ValueError "cannot reshape array into shape"), demo_self, world0).
Proof.
  refine (proj1 (get_pil_image_empty_fails 0 5 4
                   (np.array [0; 5] np.uint32 [])
                   demo_self demo_raw_self world0 _ _)).
  - repeat split; reflexivity.
  - left; reflexivity.
Defined.

(** ** Construction *)

(** What both constructors do, for every requested depth: anything but 32
    raises before the library is touched; 32 opens the device. *)
Lemma init_validation (core : Core) (res b : Z) (wd : world) :
  ToupCamCamera.__init__ core res b tt wd =
    (if (b =? 32)%Z
     then (inr (ToupCamCamera.mk_self res
                  (ret_val (lib core (calls wd) open_call)) b
                  None None None None),
           tt, mk_world (calls wd ++ [open_call]) (disk wd))
     else (inl (ValueError "Bits needs to by 8 or 32"), tt, wd)) /\
  ToupCamCameraRaw.__init__ core res b tt wd =
    (if (b =? 32)%Z
     then (inr (ToupCamCameraRaw.mk_self res
                  (ret_val (lib core (calls wd) open_call)) b
                  None (Some "temp.png")),
           tt, mk_world (calls wd ++ [open_call]) (disk wd))
     else (inl (ValueError "Bits needs to by 8 or 32"), tt, wd)).
Proof.
  unfold ToupCamCamera.__init__, ToupCamCameraRaw.__init__.
  cbn [existsb orb negb]. rewrite orb_false_r.
  destruct (b =? 32)%Z; split; reflexivity.
Qed.

(** C2.  The constructors at bit depth 8: the check [bits not in (32,)]
    raises the [ValueError] whose own message names 8 as a valid depth; no
    library call is made. *)
Theorem init_rejects_bits_8 (core : Core) (res : Z) (wd : world) :
  ToupCamCamera.__init__ core res 8 tt wd =
    (inl (ValueError "Bits needs to by 8 or 32"), tt, wd) /\
  ToupCamCameraRaw.__init__ core res 8 tt wd =
    (inl (ValueError "Bits needs to by 8 or 32"), tt, wd).
Proof. split; reflexivity. Qed.

(** The rest of that sentence holds: depth 16, like every depth other than
    32, is refused before any library call, and depth 32 is accepted. *)
Lemma init_rejects_bits_16 (core : Core) (res : Z) (wd : world) :
  ToupCamCamera.__init__ core res 16 tt wd =
    (inl (ValueError "Bits needs to by 8 or 32"), tt, wd) /\
  ToupCamCameraRaw.__init__ core res 16 tt wd =
    (inl (ValueError "Bits needs to by 8 or 32"), tt, wd).
Proof. split; reflexivity. Qed.

Lemma init_accepts_bits_32 (core : Core) (res : Z) (wd : world) :
  is_error (fst (fst (ToupCamCamera.__init__ core res 32 tt wd))) = false /\
  is_error (fst (fst (ToupCamCameraRaw.__init__ core res 32 tt wd))) = false.
Proof. split; reflexivity. Qed.

(** ** Opening the capture session *)

(** [cam_open], path by path. *)
Lemma cam_open_paths (core : Core) (s : ToupCamCamera.self_t) (wd : world) :
  let log1 := (calls wd ++ [put_eSize_call s])%list in
  let size := lib core log1 (get_Size_call s) in
  let log2 := (log1 ++ [get_Size_call s])%list in
  ToupCamCamera.cam_open core s wd =
  if success core (ret_val size)
  then
    match np.zeros [cell size 1; cell size 0] (ToupCamCamera.frame_dtype s) with
    | inl e => (inl e, s, mk_world log2 (disk wd))
    | inr d =>
        (inr (Some (success core (ret_val (lib core log2 (start_call s))))),
         ToupCamCamera.set_frame_fn (get_frame (c_int (ToupCamCamera.bits s)))
           (ToupCamCamera.set_data d s),
         mk_world (log2 ++ [start_call s]) (disk wd))
    end
  else (inr None, s, mk_world log2 (disk wd)).
Proof.
  intros log1 size log2.
  unfold ToupCamCamera.cam_open, ToupCamCamera.set_esize,
    ToupCamCamera.get_size, bind, get_self, call_lib, modify, lift, ret.
  cbn [calls disk].
  fold (put_eSize_call s). fold (get_Size_call s). fold log1. fold size.
  destruct (success core (ret_val size)); [|reflexivity].
  destruct (np.zeros [cell size 1; cell size 0] (ToupCamCamera.frame_dtype s));
    reflexivity.
Qed.

Lemma zeros_itemsize (shp : list Z) (dtype : nat) (d : np.ndarray) :
  np.zeros shp dtype = inr d -> np.itemsize d = dtype.
Proof.
  unfold np.zeros. destruct (existsb _ shp); [discriminate|].
  intros H; injection H as <-. reflexivity.
Qed.

(** C9.  An instance that [ToupCamCamera.__init__] returns has [bits = 32]:
    every other depth, 8 included, is refused.  So [cam_open] on it picks
    uint32 for the frame buffer, never the 8-bit branch, and whatever buffer
    it stores in [_data] has 4-byte elements. *)
Theorem constructed_bits_32
    (core : Core) (res b : Z) (wd wd' : world) (self : ToupCamCamera.self_t) :
  ToupCamCamera.__init__ core res b tt wd = (inr self, tt, wd') ->
  b = 32%Z /\
  ToupCamCamera.bits self = 32%Z /\
  ToupCamCamera.frame_dtype self = np.uint32 /\
  forall (w1 : world),
    match ToupCamCamera._data (snd (fst (ToupCamCamera.cam_open core self w1))) with
    | None => True
    | Some d => np.itemsize d = 4
    end.
Proof.
  intros Hinit.
  destruct (init_validation core res b wd) as [Hc _].
  rewrite Hinit in Hc.
  destruct (Z.eqb_spec b 32) as [->|Hb]; [|discriminate].
  injection Hc as -> _.
  repeat split.
  intros w1. rewrite cam_open_paths. cbv zeta.
  destruct (success core _); [|exact I].
  destruct (np.zeros _ _) as [e|d] eqn:Hz; [exact I|].
  cbn [fst snd ToupCamCamera._data ToupCamCamera.set_frame_fn
       ToupCamCamera.set_data].
  apply zeros_itemsize in Hz. exact Hz.
Qed.

Lemma constructed_bits_32_witness :
  ToupCamCamera.bits
    (ToupCamCamera.mk_self 2 1 32 None None None None) = 32%Z /\
  match ToupCamCamera._data
          (snd (fst (ToupCamCamera.cam_open live_core
                       (ToupCamCamera.mk_self 2 1 32 None None None None)
                       world0))) with
  | None => True
  | Some d => np.itemsize d = 4
  end.
Proof.
  destruct (constructed_bits_32 live_core 2 32 world0
              (mk_world [open_call] [])
              (ToupCamCamera.mk_self 2 1 32 None None None None))
    as (_ & Hbits & _ & Hopen).
  - reflexivity.
  - split; [exact Hbits | exact (Hopen world0)].
Defined.

(** C10.  When the size query of [cam_open] reports failure, [cam_open]
    returns [None] and the instance is exactly as before: [_data] and
    [_frame_fn] are untouched.  The library has seen the resolution preset
    and the size query, and no request to start pull mode. *)
Theorem cam_open_size_failure
    (core : Core) (s : ToupCamCamera.self_t) (wd : world) :
  let w1 := snd (ToupCamCamera.set_esize core (ToupCamCamera.resolution s) s wd) in
  fst (fst (ToupCamCamera.get_size core s w1)) = inr None ->
  ToupCamCamera.cam_open core s wd =
    (inr None, s,
     mk_world (calls wd ++ [put_eSize_call s; get_Size_call s]) (disk wd)).
Proof.
  intros w1. subst w1.
  unfold ToupCamCamera.set_esize, ToupCamCamera.get_size,
    bind, get_self, call_lib, ret.
  cbn [fst snd calls disk].
  fold (put_eSize_call s). fold (get_Size_call s).
  intros Hfail. rewrite cam_open_paths. cbv zeta.
  destruct (success core _); [discriminate|].
  now rewrite <- app_assoc.
Qed.

Lemma cam_open_size_failure_witness :
  ToupCamCamera.cam_open demo_core demo_self world0 =
    (inr None, demo_self,
     mk_world [put_eSize_call demo_self; get_Size_call demo_self] []).
Proof.
  apply (cam_open_size_failure demo_core demo_self world0).
  reflexivity.
Defined.

(** On the other path the instance does change: the frame buffer and the
    callback are installed and pull mode is requested. *)
Example cam_open_live :
  ToupCamCamera.cam_open live_core demo_self world0 =
    (inr (Some true),
     ToupCamCamera.mk_self 2 1 32
       (Some (np.mk_ndarray [480; 640] 4 (repeat 0%Z (480 * 640 * 4))))
       (Some (get_frame 32)) None None,
     mk_world [put_eSize_call demo_self; get_Size_call demo_self;
               start_call demo_self] []).
Proof.
  rewrite cam_open_paths. cbv zeta.
  change (success live_core _) with true. cbv iota.
  unfold np.zeros, cell. cbn [existsb outs nth live_core lib].
  reflexivity.
Qed.

(** ** Reading device parameters *)

Lemma lib_get_func_run (core : Core) (func : string)
      (s : ToupCamCamera.self_t) (wd : world) :
  ToupCamCamera._lib_get_func core func s wd =
    (inr (read_back core (lib core (calls wd) (getter_call s func))),
     s, mk_world (calls wd ++ [getter_call s func]) (disk wd)).
Proof.
  unfold ToupCamCamera._lib_get_func, ToupCamCamera._lib_func,
    bind, get_self, call_lib, ret, read_back.
  cbn [fst snd]. fold (getter_call s func).
  destruct (success core _); reflexivity.
Qed.

(** C5.  Every scalar getter makes one library call on the handle, whatever
    the handle is.  It returns [None] when the status of that call is not a
    success, and the value the library stored when it is; a failure never
    comes back as a number.  The instance is left as it was. *)
Theorem getters_none_on_failure
    (core : Core) (s : ToupCamCamera.self_t) (wd : world) :
  let answer (c : lib_call) := lib core (calls wd) c in
  let after (c : lib_call) := mk_world (calls wd ++ [c]) (disk wd) in
  let scalar (name : string) :=
    (inr (read_back core (answer (getter_call s name))), s,
     after (getter_call s name)) in
  (forall r : reply, success core (ret_val r) = false -> read_back core r = None) /\
  (forall r : reply, success core (ret_val r) = true ->
     read_back core r = Some (cell r 0)) /\
  (forall func : string, ToupCamCamera._lib_get_func core func s wd = scalar func) /\
  ToupCamCamera.get_gamma core s wd = scalar "Gamma" /\
  ToupCamCamera.get_contrast core s wd = scalar "Contrast" /\
  ToupCamCamera.get_brightness core s wd = scalar "Brightness" /\
  ToupCamCamera.get_saturation core s wd = scalar "Saturation" /\
  ToupCamCamera.get_hue core s wd = scalar "Hue" /\
  ToupCamCamera.get_exposure_time core s wd = scalar "ExpoTime" /\
  ToupCamCamera.get_auto_exposure core s wd = scalar "AutoExpoEnable" /\
  ToupCamCamera.get_esize core s wd = scalar "eSize".
Proof.
  intros answer after scalar. subst answer after scalar. cbv beta.
  split; [intros r Hr; unfold read_back; now rewrite Hr|].
  split; [intros r Hr; unfold read_back; now rewrite Hr|].
  split; [intros func; apply lib_get_func_run|].
  repeat split; apply lib_get_func_run.
Qed.

(** On a device that fails every call, and on the null handle, the getter
    returns [None], not 0. *)
Lemma getters_none_on_failure_witness :
  fst (fst (ToupCamCamera.get_gamma demo_core
              (ToupCamCamera.mk_self 2 0 32 None None None None) world0)) =
  inr None.
Proof.
  destruct (getters_none_on_failure demo_core
              (ToupCamCamera.mk_self 2 0 32 None None None None) world0)
    as (Hnone & _ & _ & Hgamma & _).
  rewrite Hgamma. cbn [fst]. rewrite Hnone by reflexivity. reflexivity.
Defined.

(** ** The conversion has no effect *)

Lemma get_pil_image_run (data : option np.ndarray)
      (s : ToupCamCamera.self_t) (wd : world) :
  ToupCamCamera.get_pil_image data s wd =
    (fst (fst (ToupCamCamera.get_pil_image data s world0)), s, wd).
Proof.
  unfold ToupCamCamera.get_pil_image, bind, get_self.
  destruct (match data with None => ToupCamCamera._data s | Some d => Some d end)
    as [d|]; [|reflexivity].
  rewrite (pil_image_of_pure d s wd s world0). reflexivity.
Qed.

(** C6.  A second call of [get_pil_image] on the same buffer, right after the
    first, returns the same result and finds and leaves the instance and the
    world as the first call did.  The result is a function of the buffer
    alone: the instance and the world it is called in make no difference. *)
Theorem get_pil_image_twice
    (data : option np.ndarray) (a : np.ndarray)
    (s s' : ToupCamCamera.self_t) (sr sr' : ToupCamCameraRaw.self_t)
    (wd wd' : world) :
  let first := ToupCamCamera.get_pil_image data s wd in
  let first_raw := ToupCamCameraRaw.get_pil_image a sr wd in
  ToupCamCamera.get_pil_image data (snd (fst first)) (snd first) = first /\
  ToupCamCameraRaw.get_pil_image a (snd (fst first_raw)) (snd first_raw) =
    first_raw /\
  fst (fst (ToupCamCamera.get_pil_image (Some a) s wd)) =
    fst (fst (ToupCamCamera.get_pil_image (Some a) s' wd')) /\
  fst (fst (ToupCamCameraRaw.get_pil_image a sr wd)) =
    fst (fst (ToupCamCameraRaw.get_pil_image a sr' wd')).
Proof.
  intros first first_raw. subst first first_raw.
  repeat split.
  - rewrite (get_pil_image_run data s wd). cbn [fst snd].
    apply get_pil_image_run.
  - unfold ToupCamCameraRaw.get_pil_image.
    rewrite (pil_image_of_pure a sr wd sr world0). cbn [fst snd].
    apply pil_image_of_pure.
  - unfold ToupCamCamera.get_pil_image, bind, get_self.
    rewrite (pil_image_of_pure a s wd s' wd'). reflexivity.
  - unfold ToupCamCameraRaw.get_pil_image.
    rewrite (pil_image_of_pure a sr wd sr' wd'). reflexivity.
Qed.

(** C7.  On a valid buffer, [get_pil_image] returns an image and changes
    nothing: the instance attributes, [_data] among them, are the same
    afterwards, the log of library calls has no new entry and no file was
    written.  This holds for a buffer passed as the argument and for the
    instance's own frame buffer. *)
Theorem get_pil_image_no_effect
    (h w k : nat) (a : np.ndarray)
    (s : ToupCamCamera.self_t) (sr : ToupCamCameraRaw.self_t) (wd : world) :
  PixelBuffer h w k a -> 3 <= k -> 0 < h -> 0 < w ->
  exists img : Image.t,
    ToupCamCamera.get_pil_image (Some a) s wd = (inr img, s, wd) /\
    ToupCamCameraRaw.get_pil_image a sr wd = (inr img, sr, wd) /\
    (ToupCamCamera._data s = Some a ->
     ToupCamCamera.get_pil_image None s wd = (inr img, s, wd) /\
     ToupCamCamera._data
       (snd (fst (ToupCamCamera.get_pil_image None s wd))) = Some a).
Proof.
  intros Hbuf Hk Hh Hw.
  destruct (PixelBuffer_inv _ _ _ _ Hbuf) as [Ha Hlen].
  assert (Hnot : (k <? 3) = false) by (apply Nat.ltb_ge; exact Hk).
  assert (Hrun : forall (S : Type) (st : S),
             pil_image_of a st wd =
             (inr (swapped w h (kept h w k (np.buffer a))), st, wd)).
  { intros S st. rewrite Ha at 1.
    rewrite pil_image_of_rows, Hnot by assumption. reflexivity. }
  exists (swapped w h (kept h w k (np.buffer a))).
  split; [|split].
  - unfold ToupCamCamera.get_pil_image, bind, get_self. apply Hrun.
  - apply Hrun.
  - intros Hown.
    assert (Hnone : ToupCamCamera.get_pil_image None s wd =
              (inr (swapped w h (kept h w k (np.buffer a))), s, wd)).
    { unfold ToupCamCamera.get_pil_image, bind, get_self.
      rewrite Hown. apply Hrun. }
    split; [exact Hnone|]. rewrite Hnone. exact Hown.
Qed.

Lemma get_pil_image_no_effect_witness :
  exists img : Image.t,
    ToupCamCamera.get_pil_image (Some sample_buffer) holding_self
      (mk_world [open_call] []) =
      (inr img, holding_self, mk_world [open_call] []) /\
    ToupCamCamera.get_pil_image None holding_self (mk_world [open_call] []) =
      (inr img, holding_self, mk_world [open_call] []).
Proof.
  destruct (get_pil_image_no_effect 2 2 4 sample_buffer
              holding_self demo_raw_self (mk_world [open_call] []))
    as (img & Hrun & _ & Hown).
  - repeat split; reflexivity.
  - lia.
  - lia.
  - lia.
  - exists img. split; [exact Hrun|]. apply Hown. reflexivity.
Defined.

(** By contrast, saving does write: [_do_save] of the raw class leaves the
    converted image in the file named by [_save_path]. *)
Example do_save_writes :
  disk (snd (ToupCamCameraRaw._do_save sample_buffer demo_raw_self world0)) =
  [("temp.png",
    Image.mk_image "RGB" (2, 2)
      [[30; 30; 30; 30]; [20; 20; 20; 20]; [10; 10; 10; 10]]%Z)].
Proof. reflexivity. Qed.

(** ** Closing *)

(** C8, as the code has it.  With a null handle [cam_close] does nothing: no
    error, no library call, no change.  With any other handle each call
    passes the handle to [Toupcam_Close] once; the handle stays in [cam], so
    the next [cam_close] calls the library again.  The instance attributes
    are the same after any call. *)
Theorem cam_close_effect
    (core : Core) (s : ToupCamCamera.self_t) (sr : ToupCamCameraRaw.self_t)
    (wd : world) :
  ToupCamCamera.cam_close core s wd =
    (inr tt, s,
     if (ToupCamCamera.cam s =? 0)%Z then wd
     else mk_world (calls wd ++ [close_call (ToupCamCamera.cam s)]) (disk wd)) /\
  ToupCamCameraRaw.cam_close core sr wd =
    (inr tt, sr,
     if (ToupCamCameraRaw.cam sr =? 0)%Z then wd
     else mk_world (calls wd ++ [close_call (ToupCamCameraRaw.cam sr)]) (disk wd)).
Proof.
  unfold ToupCamCamera.cam_close, ToupCamCameraRaw.cam_close,
    bind, get_self, call_lib, ret, close_call.
  destruct (ToupCamCamera.cam s =? 0)%Z, (ToupCamCameraRaw.cam sr =? 0)%Z;
    split; reflexivity.
Qed.

(** C8 as stated fails on an open session: after one [cam_close] the device
    is closed, yet a second [cam_close] is not a no-op; it hands the same
    handle to [Toupcam_Close] again. *)
Lemma cam_close_again_calls_library :
  let once := ToupCamCamera.cam_close demo_core demo_self world0 in
  let twice := ToupCamCamera.cam_close demo_core (snd (fst once)) (snd once) in
  calls (snd once) = [close_call 1] /\
  calls (snd twice) = [close_call 1; close_call 1] /\
  snd twice <> snd once.
Proof.
  cbv zeta. split; [reflexivity|]. split; [reflexivity|]. discriminate.
Qed.

(** * Further properties of the session classes *)

(** ** Helpers *)

Lemma get_pil_image_own (a : np.ndarray) (s : ToupCamCamera.self_t) (wd : world) :
  ToupCamCamera._data s = Some a ->
  ToupCamCamera.get_pil_image None s wd = pil_image_of a s wd.
Proof.
  intros Hown. unfold ToupCamCamera.get_pil_image, bind, get_self.
  now rewrite Hown.
Qed.

Lemma save_frame_run (p : string) (s : ToupCamCamera.self_t) (wd : world) :
  ToupCamCamera.save_tiff p s wd =
  match fst (fst (ToupCamCamera.get_pil_image None s wd)) with
  | inl e => (inl e, s, wd)
  | inr im => (inr tt, s, saved wd p im)
  end.
Proof.
  unfold ToupCamCamera.save_tiff, bind.
  rewrite (get_pil_image_run None s wd). cbn [fst snd].
  destruct (fst (fst (ToupCamCamera.get_pil_image None s world0)));
    reflexivity.
Qed.

Lemma zeros_buffer (h w : Z) (dtype : nat) :
  (0 <= h)%Z -> (0 <= w)%Z ->
  np.zeros [h; w] dtype =
  inr (np.mk_ndarray [Z.to_nat h; Z.to_nat w] dtype
         (repeat 0%Z (Z.to_nat h * Z.to_nat w * dtype))).
Proof.
  intros Hh Hw. unfold np.zeros. cbn [existsb map].
  replace (h <? 0)%Z with false by (symmetry; apply Z.ltb_ge; exact Hh).
  replace (w <? 0)%Z with false by (symmetry; apply Z.ltb_ge; exact Hw).
  cbn [orb]. now rewrite prod_2.
Qed.

Lemma zeros_negative (h w : Z) (dtype : nat) :
  (h < 0)%Z \/ (w < 0)%Z ->
  np.zeros [h; w] dtype = inl (ValueError "negative dimensions are not allowed").
Proof.
  intros Hneg. unfold np.zeros. cbn [existsb].
  replace ((h <? 0)%Z || ((w <? 0)%Z || false)) with true; [reflexivity|].
  symmetry. rewrite orb_false_r. apply orb_true_iff.
  destruct Hneg as [H|H]; [left|right]; apply Z.ltb_lt; exact H.
Qed.

Lemma zeros_PixelBuffer (h w k : nat) :
  PixelBuffer h w k (np.mk_ndarray [h; w] k (repeat 0%Z (h * w * k))).
Proof.
  unfold PixelBuffer. cbn [np.shape np.itemsize np.buffer].
  now rewrite repeat_length.
Qed.

Lemma cam_open_alloc_run
    (core : Core) (s : ToupCamCamera.self_t) (wd : world) :
  let size := lib core (calls wd ++ [put_eSize_call s]) (get_Size_call s) in
  let h := Z.to_nat (cell size 1) in
  let w := Z.to_nat (cell size 0) in
  let k := ToupCamCamera.frame_dtype s in
  let d := np.mk_ndarray [h; w] k (repeat 0%Z (h * w * k)) in
  success core (ret_val size) = true ->
  (0 <= cell size 0)%Z -> (0 <= cell size 1)%Z ->
  ToupCamCamera.cam_open core s wd =
    (inr (Some (success core
                  (ret_val (lib core
                     (calls wd ++ [put_eSize_call s; get_Size_call s])
                     (start_call s))))),
     ToupCamCamera.mk_self
       (ToupCamCamera.resolution s) (ToupCamCamera.cam s)
       (ToupCamCamera.bits s) (Some d)
       (Some (get_frame (c_int (ToupCamCamera.bits s))))
       (ToupCamCamera._temptint_cb s) (ToupCamCamera._save_path s),
     called wd [put_eSize_call s; get_Size_call s; start_call s]).
Proof.
  intros size h w k d Hok Hw Hh.
  rewrite cam_open_paths. cbv zeta. fold size. rewrite Hok.
  rewrite zeros_buffer by assumption.
  unfold called, ToupCamCamera.set_frame_fn, ToupCamCamera.set_data.
  cbn [ToupCamCamera.resolution ToupCamCamera.cam ToupCamCamera.bits
       ToupCamCamera._data ToupCamCamera._frame_fn
       ToupCamCamera._temptint_cb ToupCamCamera._save_path].
  rewrite <- !app_assoc. reflexivity.
Qed.

Lemma cam_open_negative_run
    (core : Core) (s : ToupCamCamera.self_t) (wd : world) :
  let size := lib core (calls wd ++ [put_eSize_call s]) (get_Size_call s) in
  success core (ret_val size) = true ->
  (cell size 0 < 0)%Z \/ (cell size 1 < 0)%Z ->
  ToupCamCamera.cam_open core s wd =
    (inl (ValueError "negative dimensions are not allowed"), s,
     called wd [put_eSize_call s; get_Size_call s]).
Proof.
  intros size Hok Hneg.
  rewrite cam_open_paths. cbv zeta. fold size. rewrite Hok.
  rewrite zeros_negative by tauto.
  unfold called. rewrite <- app_assoc. reflexivity.
Qed.


Lemma frame_dtype_uint8 (s : ToupCamCamera.self_t) :
  ToupCamCamera.bits s = 8%Z -> ToupCamCamera.frame_dtype s = 1.
Proof.
  intros H. unfold ToupCamCamera.frame_dtype. now rewrite H.
Qed.

(** ** Opening, then using the frame buffer *)

(** X1.  When the size query succeeds with a width and a height that are not
    negative, [cam_open] stores in [_data] a zeroed buffer of shape (height,
    width), the height being the second value of the query, with the element
    size chosen from [bits] and exactly height * width * element size bytes;
    it installs the callback, asks for pull mode and returns the status of
    that request.  No other attribute changes. *)
Theorem cam_open_allocates
    (core : Core) (s : ToupCamCamera.self_t) (wd : world) :
  let size := lib core (calls wd ++ [put_eSize_call s]) (get_Size_call s) in
  let h := Z.to_nat (cell size 1) in
  let w := Z.to_nat (cell size 0) in
  let k := ToupCamCamera.frame_dtype s in
  let d := np.mk_ndarray [h; w] k (repeat 0%Z (h * w * k)) in
  success core (ret_val size) = true ->
  (0 <= cell size 0)%Z -> (0 <= cell size 1)%Z ->
  PixelBuffer h w k d /\
  ToupCamCamera.cam_open core s wd =
    (inr (Some (success core
                  (ret_val (lib core
                     (calls wd ++ [put_eSize_call s; get_Size_call s])
                     (start_call s))))),
     ToupCamCamera.mk_self
       (ToupCamCamera.resolution s) (ToupCamCamera.cam s)
       (ToupCamCamera.bits s) (Some d)
       (Some (get_frame (c_int (ToupCamCamera.bits s))))
       (ToupCamCamera._temptint_cb s) (ToupCamCamera._save_path s),
     called wd [put_eSize_call s; get_Size_call s; start_call s]).
Proof.
  intros size h w k d Hok Hw Hh.
  split; [apply zeros_PixelBuffer|].
  now apply cam_open_alloc_run.
Qed.

Lemma cam_open_allocates_witness :
  ToupCamCamera._data
    (snd (fst (ToupCamCamera.cam_open (sized_core 3 2) demo_self world0))) =
  Some (np.mk_ndarray [2; 3] 4 (repeat 0%Z 24)).
Proof.
  destruct (cam_open_allocates (sized_core 3 2) demo_self world0)
    as [_ Hrun].
  - reflexivity.
  - cbn. lia.
  - cbn. lia.
  - rewrite Hrun. reflexivity.
Defined.

(** X2.  When the size query succeeds but stores a negative width or height,
    [cam_open] raises the [ValueError] of [np.zeros]; the session is as
    before, with no buffer and no callback installed, and pull mode was not
    requested. *)
Theorem cam_open_negative_size
    (core : Core) (s : ToupCamCamera.self_t) (wd : world) :
  let size := lib core (calls wd ++ [put_eSize_call s]) (get_Size_call s) in
  success core (ret_val size) = true ->
  (cell size 0 < 0)%Z \/ (cell size 1 < 0)%Z ->
  ToupCamCamera.cam_open core s wd =
    (inl (ValueError "negative dimensions are not allowed"), s,
     called wd [put_eSize_call s; get_Size_call s]).
Proof.
  intros size Hok Hneg. now apply cam_open_negative_run.
Qed.

Lemma cam_open_negative_size_witness :
  ToupCamCamera.cam_open (sized_core (-1) 480) demo_self world0 =
    (inl (ValueError "negative dimensions are not allowed"), demo_self,
     called world0 [put_eSize_call demo_self; get_Size_call demo_self]).
Proof.
  apply (cam_open_negative_size (sized_core (-1) 480) demo_self world0).
  - reflexivity.
  - left. cbn. lia.
Defined.

(** The session [cam_open] leaves behind on its successful path. *)
Lemma cam_open_then
    (core : Core) (s : ToupCamCamera.self_t) (wd : world) :
  let size := lib core (calls wd ++ [put_eSize_call s]) (get_Size_call s) in
  let h := Z.to_nat (cell size 1) in
  let w := Z.to_nat (cell size 0) in
  let k := ToupCamCamera.frame_dtype s in
  success core (ret_val size) = true ->
  (0 <= cell size 0)%Z -> (0 <= cell size 1)%Z ->
  exists (r : option bool) (s' : ToupCamCamera.self_t),
    ToupCamCamera.cam_open core s wd =
      (inr r, s', called wd [put_eSize_call s; get_Size_call s; start_call s]) /\
    ToupCamCamera._data s' =
      Some (np.mk_ndarray [h; w] k (repeat 0%Z (h * w * k))).
Proof.
  intros size h w k Hok Hw Hh.
  eexists. eexists. split.
  - now apply cam_open_alloc_run.
  - reflexivity.
Qed.




(** X4.  A device that reports width 0 or height 0 with a success status:
    [cam_open] goes through and installs an empty frame buffer, and from
    then on [get_pil_image()], [save_tiff] and [save_jpeg] raise numpy's
    [ValueError] and write no file. *)
Theorem open_zero_size_then_no_image
    (core : Core) (s : ToupCamCamera.self_t) (wd : world)
    (p : string) (q : Z) :
  let size := lib core (calls wd ++ [put_eSize_call s]) (get_Size_call s) in
  success core (ret_val size) = true ->
  (0 <= cell size 0)%Z -> (0 <= cell size 1)%Z ->
  cell size 0 = 0%Z \/ cell size 1 = 0%Z ->
  exists (r : option bool) (s' : ToupCamCamera.self_t) (wd' : world),
    let failed {A : Type} : result A * ToupCamCamera.self_t * world :=
      (inl (ValueError "cannot reshape array into shape"), s', wd') in
    ToupCamCamera.cam_open core s wd = (inr r, s', wd') /\
    ToupCamCamera.get_pil_image None s' wd' = failed /\
    ToupCamCamera.save_tiff p s' wd' = failed /\
    ToupCamCamera.save_jpeg p q s' wd' = failed.
Proof.
  intros size Hok Hw Hh Hzero.
  destruct (cam_open_then core s wd) as (r & s' & Hopen & Hdata);
    [exact Hok | exact Hw | exact Hh |].
  fold size in Hdata.
  exists r, s', (called wd [put_eSize_call s; get_Size_call s; start_call s]).
  cbv zeta.
  assert (Himg : forall wd' : world,
             ToupCamCamera.get_pil_image None s' wd' =
             (inl (ValueError "cannot reshape array into shape"), s', wd')).
  { intros wd'. rewrite (get_pil_image_own _ s' _ Hdata).
    apply pil_image_of_empty. lia. }
  split; [exact Hopen|]. split; [apply Himg|].
  split.
  - rewrite save_frame_run, Himg. reflexivity.
  - unfold ToupCamCamera.save_jpeg, bind. rewrite Himg. reflexivity.
Qed.

Lemma open_zero_size_then_no_image_witness :
  exists (s' : ToupCamCamera.self_t) (wd' : world),
    ToupCamCamera.cam_open (sized_core 0 480) demo_self world0 =
      (inr (Some true), s', wd') /\
    ToupCamCamera.save_tiff "frame.tif" s' wd' =
      (inl (ValueError "cannot reshape array into shape"), s', wd').
Proof.
  destruct (open_zero_size_then_no_image (sized_core 0 480) demo_self world0
              "frame.tif" 100)
    as (r & s' & wd' & Hopen & _ & Htiff & _).
  - reflexivity.
  - cbn. lia.
  - cbn. lia.
  - left. reflexivity.
  - exists s', wd'. split; [|exact Htiff].
    rewrite Hopen. f_equal. f_equal.
    assert (H := Hopen). rewrite cam_open_paths in H. cbv zeta in H.
    change (success (sized_core 0 480) _) with true in H. cbv iota in H.
    rewrite zeros_buffer in H by (cbn; lia).
    injection H as H _ _. now rewrite <- H.
Defined.

(** X5.  A session whose [bits] attribute is 8, which the constructor never
    produces but [cam_open] provides for: [cam_open] allocates one byte per
    pixel, and [get_pil_image()] on that buffer raises Pillow's
    [ValueError]; the 8-bit frame buffer cannot be converted. *)
Theorem open_8_bit_then_no_image
    (core : Core) (s : ToupCamCamera.self_t) (wd : world) :
  let size := lib core (calls wd ++ [put_eSize_call s]) (get_Size_call s) in
  let h := Z.to_nat (cell size 1) in
  let w := Z.to_nat (cell size 0) in
  ToupCamCamera.bits s = 8%Z ->
  success core (ret_val size) = true ->
  (0 < cell size 0)%Z -> (0 < cell size 1)%Z ->
  exists (r : option bool) (s' : ToupCamCamera.self_t) (wd' : world),
    ToupCamCamera.cam_open core s wd = (inr r, s', wd') /\
    ToupCamCamera._data s' =
      Some (np.mk_ndarray [h; w] 1 (repeat 0%Z (h * w * 1))) /\
    ToupCamCamera.get_pil_image None s' wd' =
      (inl (ValueError "not enough image data"), s', wd').
Proof.
  intros size h w Hbits Hok Hw Hh.
  destruct (cam_open_then core s wd) as (r & s' & Hopen & Hdata);
    [exact Hok | exact (Z.lt_le_incl _ _ Hw) | exact (Z.lt_le_incl _ _ Hh) |].
  fold size h w in Hdata. rewrite (frame_dtype_uint8 s Hbits) in Hdata.
  exists r, s', (called wd [put_eSize_call s; get_Size_call s; start_call s]).
  split; [exact Hopen|]. split; [exact Hdata|].
  rewrite (get_pil_image_own _ s' _ Hdata).
  rewrite pil_image_of_rows by (try apply repeat_length; lia).
  reflexivity.
Qed.

Lemma open_8_bit_then_no_image_witness :
  exists (r : option bool) (s' : ToupCamCamera.self_t) (wd' : world),
    ToupCamCamera.cam_open (sized_core 3 2)
      (ToupCamCamera.mk_self 2 1 8 None None None None) world0 =
      (inr r, s', wd') /\
    ToupCamCamera.get_pil_image None s' wd' =
      (inl (ValueError "not enough image data"), s', wd').
Proof.
  destruct (open_8_bit_then_no_image (sized_core 3 2)
              (ToupCamCamera.mk_self 2 1 8 None None None None) world0)
    as (r & s' & wd' & Hopen & _ & Himg).
  - reflexivity.
  - reflexivity.
  - cbn. lia.
  - cbn. lia.
  - exists r, s', wd'. split; [exact Hopen | exact Himg].
Defined.

(** ** Saving *)

Lemma pil_image_of_valid {S : Type} (h w k : nat) (a : np.ndarray)
      (s : S) (wd : world) :
  PixelBuffer h w k a -> 3 <= k -> 0 < h -> 0 < w ->
  pil_image_of a s wd = (inr (swapped w h (kept h w k (np.buffer a))), s, wd).
Proof.
  intros Hbuf Hk Hh Hw.
  destruct (PixelBuffer_inv _ _ _ _ Hbuf) as [Ha Hlen].
  rewrite Ha at 1. rewrite pil_image_of_rows by assumption.
  now replace (k <? 3) with false by (symmetry; apply Nat.ltb_ge; exact Hk).
Qed.

(** X6.  [save_tiff] and [save_jpeg] save exactly the image that
    [get_pil_image()] returns for the session's frame buffer, under the path
    given, and make no library call; when the conversion raises, so do they,
    and no file is written.  In particular both raise [AttributeError] on a
    session that has no frame buffer yet. *)
Theorem save_writes_converted_frame
    (s : ToupCamCamera.self_t) (wd : world) (p : string) (q : Z) :
  let outcome :=
    match fst (fst (ToupCamCamera.get_pil_image None s wd)) with
    | inl e => (inl e, s, wd)
    | inr im => (inr tt, s, saved wd p im)
    end in
  ToupCamCamera.save_tiff p s wd = outcome /\
  ToupCamCamera.save_jpeg p q s wd = outcome /\
  (ToupCamCamera._data s = None ->
   outcome =
   (inl (AttributeError "'NoneType' object has no attribute 'view'"), s, wd)).
Proof.
  cbv zeta. split; [apply save_frame_run|]. split.
  - exact (save_frame_run p s wd).
  - intros Hnone. unfold ToupCamCamera.get_pil_image, bind, get_self.
    rewrite Hnone. reflexivity.
Qed.

Lemma save_writes_converted_frame_witness :
  ToupCamCamera.save_jpeg "frame.jpg" 90 demo_self world0 =
  (inl (AttributeError "'NoneType' object has no attribute 'view'"),
   demo_self, world0).
Proof.
  destruct (save_writes_converted_frame demo_self world0 "frame.jpg" 90)
    as (_ & Hjpeg & Hnone).
  rewrite Hjpeg. apply Hnone. reflexivity.
Defined.

(** X7.  [ToupCamCamera._do_save] on a session whose [_save_path] is [None],
    the class default that no method of the class assigns: the call raises
    for every array, and nothing is written or sent to the library.  For a
    valid buffer the conversion succeeds and it is [image.save(None)] that
    raises. *)
Theorem do_save_without_path_raises
    (im : np.ndarray) (s : ToupCamCamera.self_t) (wd : world) :
  ToupCamCamera._save_path s = None ->
  exists e : exn,
    ToupCamCamera._do_save im s wd = (inl e, s, wd) /\
    forall h w k : nat,
      PixelBuffer h w k im -> 3 <= k -> 0 < h -> 0 < w ->
      e = ValueError "unknown file extension".
Proof.
  intros Hpath.
  unfold ToupCamCamera._do_save, bind, get_self.
  rewrite (get_pil_image_run (Some im) s wd). cbn [fst snd].
  destruct (fst (fst (ToupCamCamera.get_pil_image (Some im) s world0)))
    as [e|img] eqn:Hconv.
  - exists e. split; [reflexivity|]. intros h w k Hbuf Hk Hh Hw.
    unfold ToupCamCamera.get_pil_image, bind, get_self in Hconv.
    rewrite (pil_image_of_valid h w k) in Hconv by assumption.
    discriminate.
  - exists (ValueError "unknown file extension").
    unfold save. rewrite Hpath. split; [reflexivity|]. reflexivity.
Qed.

Lemma do_save_without_path_raises_witness :
  ToupCamCamera._do_save sample_buffer demo_self world0 =
  (inl (ValueError "unknown file extension"), demo_self, world0).
Proof.
  destruct (do_save_without_path_raises sample_buffer demo_self world0)
    as (e & Hrun & He).
  - reflexivity.
  - rewrite Hrun. rewrite (He 2 2 4); [reflexivity| |lia|lia|lia].
    repeat split; reflexivity.
Defined.

(** X8.  [ToupCamCameraRaw._do_save] on an instance built by the
    constructor: a valid buffer is converted and saved under "temp.png",
    the class default, so every still lands in the same file; the saved
    image is the one [get_pil_image] returns.  No library call is made. *)
Theorem raw_do_save_writes_temp_png
    (core : Core) (res b : Z) (w0 w1 wd : world)
    (sr : ToupCamCameraRaw.self_t)
    (h w k : nat) (im : np.ndarray) :
  ToupCamCameraRaw.__init__ core res b tt w0 = (inr sr, tt, w1) ->
  PixelBuffer h w k im -> 3 <= k -> 0 < h -> 0 < w ->
  exists img : Image.t,
    ToupCamCameraRaw.get_pil_image im sr wd = (inr img, sr, wd) /\
    ToupCamCameraRaw._do_save im sr wd = (inr tt, sr, saved wd "temp.png" img).
Proof.
  intros Hinit Hbuf Hk Hh Hw.
  destruct (init_validation core res b w0) as [_ Hraw].
  rewrite Hinit in Hraw.
  destruct (b =? 32)%Z; [|discriminate].
  injection Hraw as -> _.
  exists (swapped w h (kept h w k (np.buffer im))).
  unfold ToupCamCameraRaw._do_save, ToupCamCameraRaw.get_pil_image,
    bind, get_self.
  rewrite !(pil_image_of_valid h w k) by assumption.
  split; reflexivity.
Qed.

Lemma raw_do_save_writes_temp_png_witness :
  disk (snd (ToupCamCameraRaw._do_save sample_buffer demo_raw_self
               (saved world0 "temp.png" (swapped 1 1 [])))) =
  [("temp.png", swapped 1 1 []);
   ("temp.png", swapped 2 2 (kept 2 2 4 (np.buffer sample_buffer)))].
Proof.
  destruct (raw_do_save_writes_temp_png demo_core 2 32 world0
              (called world0 [open_call])
              (saved world0 "temp.png" (swapped 1 1 []))
              demo_raw_self 2 2 4 sample_buffer)
    as (img & Himg & Hsave).
  - reflexivity.
  - repeat split; reflexivity.
  - lia.
  - lia.
  - lia.
  - rewrite Hsave. cbn [snd saved disk world0 app].
    assert (E : img = swapped 2 2 (kept 2 2 4 (np.buffer sample_buffer))).
    { assert (H := Himg). vm_compute in H. injection H as H. now rewrite <- H. }
    now rewrite E.
Defined.

(** ** What every sequence of calls preserves *)









(** ** Which bytes the image depends on *)

Lemma kept_ext (h w k : nat) (b1 b2 : list Z) :
  3 <= k -> length b1 = h * w * k -> length b2 = h * w * k ->
  (forall i j : nat, i < h * w -> j < 3 ->
     nth (i * k + j) b1 0%Z = nth (i * k + j) b2 0%Z) ->
  kept h w k b1 = kept h w k b2.
Proof.
  intros Hk H1 H2 Hsame.
  assert (Hmin : Nat.min 3 k = 3) by lia.
  apply (nth_ext _ _ [] []); [now rewrite !kept_length|].
  intros i Hi. rewrite kept_length in Hi.
  assert (L1 : length (nth i (kept h w k b1) []) = 3).
  { rewrite <- Hmin.
    apply (proj1 (Forall_nth _ _) (kept_all_length h w k b1 H1)).
    now rewrite kept_length. }
  assert (L2 : length (nth i (kept h w k b2) []) = 3).
  { rewrite <- Hmin.
    apply (proj1 (Forall_nth _ _) (kept_all_length h w k b2 H2)).
    now rewrite kept_length. }
  apply (nth_ext _ _ 0%Z 0%Z); [now rewrite L1, L2|].
  intros j Hj. rewrite L1 in Hj.
  rewrite !nth_kept by lia. now apply Hsame.
Qed.

(** X10.  The image depends only on the first three bytes of each element:
    two buffers of the same shape and element size that agree on those
    bytes, whatever their padding bytes hold, are converted to the same
    image. *)
Theorem get_pil_image_ignores_padding
    (h w k : nat) (a b : np.ndarray)
    (s : ToupCamCamera.self_t) (wd : world) :
  PixelBuffer h w k a -> PixelBuffer h w k b ->
  3 <= k -> 0 < h -> 0 < w ->
  (forall y x j : nat, y < h -> x < w -> j < 3 ->
     elem_byte a w k y x j = elem_byte b w k y x j) ->
  ToupCamCamera.get_pil_image (Some a) s wd =
  ToupCamCamera.get_pil_image (Some b) s wd.
Proof.
  intros Ha Hb Hk Hh Hw Hsame.
  unfold ToupCamCamera.get_pil_image, bind, get_self.
  rewrite (pil_image_of_valid h w k a), (pil_image_of_valid h w k b)
    by assumption.
  destruct Ha as (_ & _ & La). destruct Hb as (_ & _ & Lb).
  rewrite (kept_ext h w k (np.buffer a) (np.buffer b)); try assumption;
    [reflexivity|].
  intros i j Hi Hj.
  assert (Hy : i / w < h) by (apply Nat.Div0.div_lt_upper_bound; lia).
  assert (Hx : i mod w < w) by (apply Nat.mod_upper_bound; lia).
  specialize (Hsame (i / w) (i mod w) j Hy Hx Hj).
  unfold elem_byte in Hsame.
  replace (i / w * w + i mod w) with i in Hsame
    by (rewrite (Nat.div_mod_eq i w) at 1; lia).
  exact Hsame.
Qed.

Lemma get_pil_image_ignores_padding_witness :
  ToupCamCamera.get_pil_image
    (Some (np.array [1; 2] np.uint32 [bgr_pixel; bgr_pixel])) demo_self world0 =
  ToupCamCamera.get_pil_image
    (Some (np.array [1; 2] np.uint32 [1971210; 1971210]%Z)) demo_self world0.
Proof.
  apply (get_pil_image_ignores_padding 1 2 4).
  - repeat split; reflexivity.
  - repeat split; reflexivity.
  - lia.
  - lia.
  - lia.
  - intros y x j Hy Hx Hj.
    destruct y as [|y]; [|lia].
    destruct x as [|[|x]]; [| |lia];
      (destruct j as [|[|[|j]]]; [| | |lia]); reflexivity.
Defined.

Lemma byte_of_range (x : Z) (i : nat) : (0 <= byte_of x i <= 255)%Z.
Proof.
  unfold byte_of. change 255%Z with (Z.ones 8).
  rewrite Z.land_ones by lia.
  assert (H := Z.mod_pos_bound (Z.shiftr x (8 * Z.of_nat i)) (2 ^ 8) eq_refl).
  change (2 ^ 8)%Z with 256%Z in *. change (Z.ones 8) with 255%Z. lia.
Qed.

Lemma array_PixelBuffer (h w k : nat) (elems : list Z) :
  length elems = h * w ->
  PixelBuffer h w k (np.array [h; w] k elems).
Proof.
  intros Hlen. unfold PixelBuffer, np.array.
  cbn [np.shape np.itemsize np.buffer]. repeat split.
  rewrite (length_concat_const k), length_map, Hlen; [reflexivity|].
  apply Forall_map, Forall_forall. intros e _.
  unfold to_bytes. now rewrite length_map, length_seq.
Qed.

(** X11.  On a height x width array of 32-bit integers the pixel at column
    [x] of row [y] is computed from the integer [e] stored there: red is
    bits 16 to 23, green bits 8 to 15 and blue bits 0 to 7; bits 24 to 31
    play no part.  Every channel value lies between 0 and 255. *)
Theorem get_pil_image_uint32
    (h w : nat) (elems : list Z)
    (s : ToupCamCamera.self_t) (wd : world) :
  0 < h -> 0 < w -> length elems = h * w ->
  exists img : Image.t,
    ToupCamCamera.get_pil_image
      (Some (np.array [h; w] np.uint32 elems)) s wd = (inr img, s, wd) /\
    forall y x : nat, y < h -> x < w ->
      let e := nth (y * w + x) elems 0%Z in
      Image.getpixel img x y =
        [Z.land (Z.shiftr e 16) 255; Z.land (Z.shiftr e 8) 255; Z.land e 255] /\
      Forall (fun c => (0 <= c <= 255)%Z) (Image.getpixel img x y).
Proof.
  intros Hh Hw Hlen.
  assert (Hbuf := array_PixelBuffer h w 4 elems Hlen).
  exists (swapped w h (kept h w 4 (np.buffer (np.array [h; w] 4 elems)))).
  split.
  - unfold ToupCamCamera.get_pil_image, bind, get_self.
    apply (pil_image_of_valid h w 4); (assumption || lia).
  - intros y x Hy Hx e.
    assert (Hi : y * w + x < length elems) by (rewrite Hlen; nia).
    rewrite getpixel_swapped by (assumption || lia).
    assert (E : forall j : nat, j < 4 ->
              nth ((y * w + x) * 4 + j)
                  (np.buffer (np.array [h; w] 4 elems)) 0%Z = byte_of e j).
    { intros j Hj. apply (elem_byte_array h w 4 y x j elems Hi Hj). }
    rewrite !E by lia.
    split.
    + unfold byte_of. cbn [Z.of_nat Pos.of_succ_nat Pos.succ Z.mul Pos.mul Pos.add].
      now rewrite Z.shiftr_0_r.
    + repeat constructor; apply byte_of_range.
Qed.

Lemma get_pil_image_uint32_witness :
  exists img : Image.t,
    ToupCamCamera.get_pil_image
      (Some (np.array [1; 2] np.uint32 [16711680; 255]%Z)) demo_self world0 =
      (inr img, demo_self, world0) /\
    Image.getpixel img 0 0 = [255; 0; 0]%Z /\
    Image.getpixel img 1 0 = [0; 0; 255]%Z.
Proof.
  destruct (get_pil_image_uint32 1 2 [16711680; 255]%Z demo_self world0)
    as (img & Hrun & Hpx).
  - lia.
  - lia.
  - reflexivity.
  - exists img. split; [exact Hrun|]. split.
    + apply (Hpx 0 0); lia.
    + apply (Hpx 0 1); lia.
Defined.

(** ** Arrays that are not two-dimensional *)

Lemma length_concat_firstn (m : nat) (L : list (list Z)) :
  length (concat (map (firstn m) L)) <= length L * m.
Proof.
  induction L as [|c L IH]; simpl; [lia|].
  rewrite length_app, length_firstn. lia.
Qed.

Lemma pil_image_of_scalar {S : Type} (a : np.ndarray) (s : S) (wd : world) :
  np.shape a = [] ->
  is_error (fst (fst (pil_image_of a s wd))) = true.
Proof.
  intros Hs. unfold pil_image_of, bind, lift, np.view_uint8.
  rewrite Hs. cbn [rev].
  destruct (np.itemsize a =? 1); [|reflexivity].
  unfold np.reshape_infer, np.size, np.slice_last, Image.fromarray.
  cbn [np.shape np.itemsize np.buffer np.prod fold_right Nat.eqb Nat.modulo
       Nat.divmod Nat.div fst snd Nat.sub orb negb app rev length np.tobytes
       String.eqb Ascii.eqb Bool.eqb Nat.ltb Nat.leb Nat.min Nat.mul Nat.add
       chunks map concat].
  unfold Image.frombytes.
  cbn [Image.getmodebands String.eqb Ascii.eqb Bool.eqb Nat.eqb orb
       Nat.mul Nat.add].
  rewrite app_nil_r, !length_firstn.
  destruct (length (np.buffer a)) as [|[|n]]; reflexivity.
Qed.

Lemma pil_image_of_vector {S : Type} (n : nat) (a : np.ndarray)
      (s : S) (wd : world) :
  np.shape a = [n] -> 0 < np.itemsize a ->
  is_error (fst (fst (pil_image_of a s wd))) = true.
Proof.
  intros Hs Hk. unfold pil_image_of, bind, lift, np.view_uint8.
  rewrite Hs. cbn [rev app].
  unfold np.reshape_infer, np.size.
  cbn [np.shape np.itemsize np.buffer np.prod fold_right].
  rewrite !Nat.mul_1_r.
  destruct (Nat.eqb_spec n 0) as [Hn|Hn]; [reflexivity|].
  replace (n * np.itemsize a) with (np.itemsize a * n) by lia.
  rewrite Nat.Div0.mod_mul, Nat.div_mul by exact Hn.
  cbn [Nat.eqb orb negb app].
  unfold np.slice_last, Image.fromarray.
  cbn [np.shape np.itemsize np.buffer rev app np.prod fold_right length
       np.tobytes String.eqb Ascii.eqb Bool.eqb Nat.ltb Nat.leb].
  rewrite !Nat.mul_1_r.
  unfold Image.frombytes.
  cbn [Image.getmodebands String.eqb Ascii.eqb Bool.eqb].
  set (m := Nat.min 3 (np.itemsize a)).
  assert (Hm : 0 < m) by (unfold m; lia).
  replace ((m =? 0) || (n =? 0)) with false
    by (symmetry; apply orb_false_iff; split; apply Nat.eqb_neq; lia).
  assert (Hlen := length_concat_firstn m
             (chunks n (np.itemsize a) (np.buffer a))).
  rewrite chunks_length in Hlen.
  replace (_ <? 3 * m * n) with true; [reflexivity|].
  symmetry. apply Nat.ltb_lt. nia.
Qed.

Lemma pil_image_of_deep {S : Type} (a : np.ndarray) (s : S) (wd : world) :
  3 <= length (np.shape a) ->
  is_error (fst (fst (pil_image_of a s wd))) = true.
Proof.
  intros Hdim. unfold pil_image_of, bind, lift.
  destruct (np.view_uint8 a) as [e|v]; [reflexivity|].
  unfold np.reshape_infer.
  destruct (_ || _); [reflexivity|].
  unfold np.slice_last. cbn [np.shape np.itemsize np.buffer].
  rewrite rev_unit, rev_involutive.
  unfold Image.fromarray. cbn [np.shape String.eqb Ascii.eqb Bool.eqb].
  rewrite length_app. cbn [length].
  replace (3 <? length (np.shape a) + 1) with true; [reflexivity|].
  symmetry. apply Nat.ltb_lt. lia.
Qed.

(** X12.  [get_pil_image] of either class returns an image only for
    two-dimensional arrays: on an array of any other number of dimensions,
    whatever it holds, it raises.  An array that is already height x width
    x 3 bytes is refused like the others. *)
Theorem get_pil_image_needs_2d
    (a : np.ndarray)
    (s : ToupCamCamera.self_t) (sr : ToupCamCameraRaw.self_t) (wd : world) :
  length (np.shape a) <> 2 -> 0 < np.itemsize a ->
  is_error (fst (fst (ToupCamCamera.get_pil_image (Some a) s wd))) = true /\
  is_error (fst (fst (ToupCamCameraRaw.get_pil_image a sr wd))) = true.
Proof.
  intros Hdim Hk.
  assert (H : forall (S : Type) (st : S),
            is_error (fst (fst (pil_image_of a st wd))) = true).
  { intros S st. destruct (np.shape a) as [|n [|n2 [|n3 rest]]] eqn:Hs.
    - now apply pil_image_of_scalar.
    - now apply (pil_image_of_vector n).
    - cbn in Hdim. contradiction.
    - apply pil_image_of_deep. rewrite Hs. cbn. lia. }
  split; [|apply H].
  unfold ToupCamCamera.get_pil_image, bind, get_self. apply H.
Qed.

Lemma get_pil_image_needs_2d_witness :
  ToupCamCamera.get_pil_image
    (Some (np.mk_ndarray [1; 2; 3] 1 [10; 20; 30; 40; 50; 60]%Z))
    demo_self world0 =
  (inl (ValueError "Too many dimensions"), demo_self, world0).
Proof.
  assert (H := proj1 (get_pil_image_needs_2d
              (np.mk_ndarray [1; 2; 3] 1 [10; 20; 30; 40; 50; 60]%Z)
              demo_self demo_raw_self world0
              ltac:(cbn; lia) ltac:(cbn; lia))).
  revert H.
  destruct (ToupCamCamera.get_pil_image _ demo_self world0)
    as [[[e|img] s'] wd'] eqn:Hrun; [intros _|discriminate].
  rewrite <- Hrun. reflexivity.
Defined.

(** ** Writing device parameters *)

Ltac numerals :=
  change (2 ^ 31)%Z with 2147483648%Z in *;
  change (2 ^ 32)%Z with 4294967296%Z in *.

Lemma c_int_range (v : Z) : (- 2 ^ 31 <= c_int v < 2 ^ 31)%Z.
Proof.
  unfold c_int. numerals.
  assert (H := Z.mod_pos_bound (v + 2147483648) 4294967296 eq_refl). lia.
Qed.

Lemma c_int_in_range (v : Z) :
  (- 2 ^ 31 <= v < 2 ^ 31)%Z -> c_int v = v.
Proof.
  unfold c_int. numerals. intros Hv.
  rewrite Z.mod_small; lia.
Qed.

Lemma c_int_congruent (v : Z) : ((c_int v - v) mod 2 ^ 32 = 0)%Z.
Proof.
  unfold c_int. numerals.
  rewrite (Z.mod_eq (v + 2147483648) 4294967296) by discriminate.
  replace (v + 2147483648
           - 4294967296 * ((v + 2147483648) / 4294967296) - 2147483648 - v)%Z
    with (- ((v + 2147483648) / 4294967296) * 4294967296)%Z by ring.
  apply Z.mod_mul. discriminate.
Qed.

Lemma int_setter_run (core : Core) (func : string) (v : Z)
      (s : ToupCamCamera.self_t) (wd : world) :
  (ToupCamCamera._lib_func core func [c_val v] ;;; ret tt) s wd =
  (inr tt, s, called wd [setter_call s func v]).
Proof. reflexivity. Qed.

(** X13.  The integer setters ([set_gamma], [set_contrast],
    [set_brightness], [set_saturation], [set_hue]) make one library call and
    return nothing, whatever status the library reports: a refused value is
    not signalled and the session is unchanged.  The value sent is the
    argument wrapped to 32 bits: it lies in the range of a C [int], differs
    from the argument by a multiple of 2^32, and is the argument itself when
    that is in range. *)
Theorem int_setters_wrap_and_swallow
    (core : Core) (v : Z) (s : ToupCamCamera.self_t) (wd : world) :
  let sent := c_int v in
  let done (func : string) :=
    (inr tt, s, called wd [setter_call s func sent]) in
  ToupCamCamera.set_gamma core v s wd = done "put_Gamma" /\
  ToupCamCamera.set_contrast core v s wd = done "put_Contrast" /\
  ToupCamCamera.set_brightness core v s wd = done "put_Brightness" /\
  ToupCamCamera.set_saturation core v s wd = done "put_Saturation" /\
  ToupCamCamera.set_hue core v s wd = done "put_Hue" /\
  (- 2 ^ 31 <= sent < 2 ^ 31)%Z /\
  ((sent - v) mod 2 ^ 32 = 0)%Z /\
  ((- 2 ^ 31 <= v < 2 ^ 31)%Z -> sent = v).
Proof.
  cbv zeta.
  repeat (split; [apply int_setter_run|]).
  split; [apply c_int_range|].
  split; [apply c_int_congruent | apply c_int_in_range].
Qed.

Lemma int_setters_wrap_and_swallow_witness :
  ToupCamCamera.set_gamma demo_core (2 ^ 32 + 100) demo_self world0 =
    (inr tt, demo_self, called world0 [setter_call demo_self "put_Gamma" 100]) /\
  ToupCamCamera.set_gamma live_core 100 demo_self world0 =
    (inr tt, demo_self, called world0 [setter_call demo_self "put_Gamma" 100]).
Proof.
  destruct (int_setters_wrap_and_swallow demo_core (2 ^ 32 + 100)
              demo_self world0) as (Hwrap & _).
  destruct (int_setters_wrap_and_swallow live_core 100
              demo_self world0) as (Hrun & _ & _ & _ & _ & _ & _ & Hsame).
  split.
  - rewrite Hwrap. reflexivity.
  - rewrite Hrun, Hsame; [reflexivity|]. cbn. lia.
Defined.

(** ** Sessions without a device, and closed sessions *)

(** X14.  When [Toupcam_Open] answers the null pointer the constructors do
    not raise: they return a session whose handle is null.  On it
    [cam_close] does nothing, while [cam_open] of [ToupCamCamera] and [snap]
    of [ToupCamCameraRaw] still call the library, with the null handle. *)
Theorem constructor_accepts_missing_device
    (core : Core) (res : Z) (w0 wd : world) :
  ret_val (lib core (calls w0) open_call) = 0%Z ->
  let self := ToupCamCamera.mk_self res 0 32 None None None None in
  let raw := ToupCamCameraRaw.mk_self res 0 32 None (Some "temp.png") in
  ToupCamCamera.__init__ core res 32 tt w0 =
    (inr self, tt, called w0 [open_call]) /\
  ToupCamCameraRaw.__init__ core res 32 tt w0 =
    (inr raw, tt, called w0 [open_call]) /\
  ToupCamCamera.cam_close core self wd = (inr tt, self, wd) /\
  ToupCamCameraRaw.cam_close core raw wd = (inr tt, raw, wd) /\
  ToupCamCameraRaw.snap core raw wd =
    (inr tt, raw, called wd [mk_call "Toupcam_Snap" [c_ptr 0; c_val 0]]) /\
  exists more : list lib_call,
    calls (snd (ToupCamCamera.cam_open core self wd)) =
    (calls wd ++
     mk_call "Toupcam_put_eSize" [c_ptr 0; c_val (c_ulong res)] ::
     mk_call "Toupcam_get_Size" [c_ptr 0; byref; byref] :: more)%list.
Proof.
  intros Hnull self raw.
  destruct (init_validation core res 32 w0) as [Hc Hr].
  cbn [Z.eqb Pos.eqb] in Hc, Hr. rewrite Hnull in Hc, Hr.
  split; [exact Hc|]. split; [exact Hr|].
  split; [reflexivity|]. split; [reflexivity|]. split; [reflexivity|].
  rewrite cam_open_paths. cbv zeta.
  destruct (success core _).
  - destruct (np.zeros _ _); cbn [snd calls].
    + exists []. now rewrite <- app_assoc.
    + exists [start_call self]. now rewrite <- !app_assoc.
  - exists []. cbn [snd calls]. now rewrite <- app_assoc.
Qed.

Lemma constructor_accepts_missing_device_witness :
  ToupCamCamera.__init__ absent_core 2 32 tt world0 =
    (inr (ToupCamCamera.mk_self 2 0 32 None None None None), tt,
     called world0 [open_call]) /\
  ToupCamCamera.cam_close absent_core
    (ToupCamCamera.mk_self 2 0 32 None None None None)
    (called world0 [open_call]) =
    (inr tt, ToupCamCamera.mk_self 2 0 32 None None None None,
     called world0 [open_call]).
Proof.
  destruct (constructor_accepts_missing_device absent_core 2 world0
              (called world0 [open_call])) as (Hinit & _ & Hclose & _).
  - reflexivity.
  - split; [exact Hinit | exact Hclose].
Defined.

(** X15.  [cam_close] releases nothing in the session: the handle, the frame
    buffer and the callback stay in place.  So [get_pil_image] called after
    [cam_close] returns what it returned before, and the session it leaves
    is the one from before the close. *)
Theorem close_keeps_frame
    (core : Core) (data : option np.ndarray)
    (s : ToupCamCamera.self_t) (wd : world) :
  (ToupCamCamera.cam_close core ;;; ToupCamCamera.get_pil_image data) s wd =
  (fst (fst (ToupCamCamera.get_pil_image data s wd)), s,
   snd (ToupCamCamera.cam_close core s wd)).
Proof.
  unfold bind at 1.
  assert (Hclose : exists wd' : world,
             ToupCamCamera.cam_close core s wd = (inr tt, s, wd')).
  { unfold ToupCamCamera.cam_close, bind, get_self, call_lib, ret.
    destruct (negb _); eexists; reflexivity. }
  destruct Hclose as [wd' Hclose]. rewrite Hclose. cbn [snd].
  rewrite (get_pil_image_run data s wd'), (get_pil_image_run data s wd).
  reflexivity.
Qed.

(** ** The library calls of a session *)







(** After opening and closing, a second [cam_open] goes to the library with
    the handle that was closed. *)
Example reopen_uses_closed_handle :
  calls (snd (script (sized_core 3 2)
                [call_cam_close; call_cam_open] demo_self world0)) =
  [close_call 1; put_eSize_call demo_self; get_Size_call demo_self;
   start_call demo_self].
Proof. reflexivity. Qed.

(** ** Files written by a session *)




(** ** Getters of two values *)

(** X18.  [get_size] of both classes and [get_temperature_tint] make one
    library call on the handle and return [None] exactly when its status is
    not a success; otherwise they return the two values the library stored,
    in the order of the arguments: (width, height) and (temperature, tint).
    The session is unchanged. *)
Theorem pair_getters_none_on_failure
    (core : Core) (s : ToupCamCamera.self_t) (sr : ToupCamCameraRaw.self_t)
    (wd : world) :
  let tint_call :=
    mk_call "Toupcam_get_TempTint" [c_ptr (ToupCamCamera.cam s); byref; byref] in
  let raw_call :=
    mk_call "Toupcam_get_Size" [c_ptr (ToupCamCameraRaw.cam sr); byref; byref] in
  ToupCamCamera.get_size core s wd =
    (inr (read_pair core (lib core (calls wd) (get_Size_call s))), s,
     called wd [get_Size_call s]) /\
  ToupCamCameraRaw.get_size core sr wd =
    (inr (read_pair core (lib core (calls wd) raw_call)), sr,
     called wd [raw_call]) /\
  ToupCamCamera.get_temperature_tint core s wd =
    (inr (read_pair core (lib core (calls wd) tint_call)), s,
     called wd [tint_call]) /\
  (forall r : reply, success core (ret_val r) = false ->
     read_pair core r = None) /\
  (forall r : reply, success core (ret_val r) = true ->
     read_pair core r = Some (cell r 0, cell r 1)).
Proof.
  cbv zeta. unfold read_pair.
  split; [|split; [|split; [|split]]].
  - unfold ToupCamCamera.get_size, bind, get_self, call_lib, ret.
    fold (get_Size_call s). destruct (success core _); reflexivity.
  - unfold ToupCamCameraRaw.get_size, bind, get_self, call_lib, ret.
    destruct (success core _); reflexivity.
  - unfold ToupCamCamera.get_temperature_tint, ToupCamCamera._lib_func,
      bind, get_self, call_lib, ret.
    cbn [fst snd append]. destruct (success core _); reflexivity.
  - intros r Hr. now rewrite Hr.
  - intros r Hr. now rewrite Hr.
Qed.

Lemma pair_getters_none_on_failure_witness :
  fst (fst (ToupCamCamera.get_size demo_core demo_self world0)) = inr None /\
  fst (fst (ToupCamCamera.get_size (sized_core 640 480) demo_self world0)) =
    inr (Some (640, 480)%Z).
Proof.
  destruct (pair_getters_none_on_failure demo_core demo_self demo_raw_self
              world0) as (Hfail & _ & _ & Hnone & _).
  destruct (pair_getters_none_on_failure (sized_core 640 480) demo_self
              demo_raw_self world0) as (Hok & _ & _ & _ & Hsome).
  split.
  - rewrite Hfail. cbn [fst]. rewrite Hnone; reflexivity.
  - rewrite Hok. cbn [fst]. rewrite Hsome; reflexivity.
Defined.
